(** * Pond analysis pipeline of [main.py] (class [AquacultureManager])

    A shallow embedding of the analysis core: input validation, growth,
    survival, biomass, water quality, carrying capacity, feed, recommendations
    and the confidence score, together with the orchestrating [analyze_pond].

    Number model.  Python [float] values are embedded as exact rationals [Q]
    and [int] values as [Z].  Python's [==], [<], [<=] on numbers are [Qeq],
    [Qlt], [Qle] (decided by [Qeqb], [Qltb], [Qleb]).  [round(x)] and
    [round(x, n)] round half to even on the exact value, as CPython does on
    the exact value of the double.  Binary64 representation error is not
    modelled: where an exact value falls on a rounding tie, or two exact
    values are equal, the double the program holds may lie on either side.
    Statements about rounded results are therefore given as nearest-value
    properties ([nearest_integer], [nearest_decimal]) that leave ties open,
    and statements about the capacity threshold leave exact equality open.

    Time model.  A [datetime] is a count of microseconds; [datetime.now()]
    is an effect that consumes the next reading of the system clock. *)

From Stdlib Require Import ZArith QArith Qround Qabs Lqa Lia List String Bool.
Import ListNotations.

Local Open Scope string_scope.
Local Open Scope list_scope.
Local Open Scope Z_scope.

(** ** Python numbers *)

Module Py.

Local Open Scope Q_scope.

Definition Qleb (x y : Q) : bool := Qle_bool x y.
Definition Qltb (x y : Q) : bool := negb (Qle_bool y x).
Definition Qeqb (x y : Q) : bool := Qeq_bool x y.

(** [round(x)]: nearest integer, ties to the even one. *)
Definition round_half_even (x : Q) : Z :=
  let f := Qfloor x in
  match Qcompare (x - inject_Z f) (1 # 2) with
  | Lt => f
  | Gt => (f + 1)%Z
  | Eq => if Z.even f then f else (f + 1)%Z
  end.

(** [round(x, n)] for [n >= 0]: scale by [10^n], round, scale back. *)
Definition round_nd (x : Q) (n : nat) : Q :=
  let s := inject_Z (10 ^ Z.of_nat n) in
  inject_Z (round_half_even (x * s)) / s.

(** [a <= x <= b], the chained comparison. *)
Definition between (a x b : Q) : bool := Qleb a x && Qleb x b.

End Py.

Import Py.

(** ** The system clock *)

(** [datetime.now()] is the only effect of the analysis core.  The world is
    the sequence of readings the system clock will give, with the number of
    readings already taken. *)
Record World := mkWorld {
  clock : nat -> Z;   (* k-th reading of the clock, in microseconds *)
  reads : nat         (* readings consumed so far *)
}.

Definition IO (A : Type) : Type := World -> A * World.

Definition ret {A} (a : A) : IO A := fun w => (a, w).

Definition bind {A B} (m : IO A) (k : A -> IO B) : IO B :=
  fun w => let (a, w') := m w in k a w'.

Notation "x <- m ;; k" := (bind m (fun x => k))
  (at level 61, m at next level, right associativity).

Definition datetime_now : IO Z :=
  fun w => (clock w (reads w), mkWorld (clock w) (S (reads w))).

Definition run {A} (m : IO A) (w : World) : A := fst (m w).

(** A world whose clock stands still at [t]. *)
Definition frozen (t : Z) : World := mkWorld (fun _ => t) 0.

(** A world whose first readings are [ts] and which then stays at [t]. *)
Definition ticking (ts : list Z) (t : Z) : World :=
  mkWorld (fun k => nth k ts t) 0.

Definition MICROSECONDS_PER_DAY : Z := 86400 * 1000000.

(** [(a - b).days]: a [timedelta] is normalised so that its [days] is the
    floor of the difference in days. *)
Definition timedelta_days (a b : Z) : Z := (a - b) / MICROSECONDS_PER_DAY.

(** ** Data model *)

Record WeatherData := mkWeatherData {
  temperature : Q;
  condition : string;
  wind_speed : Q;
  precipitation : Q;
  timestamp : Z
}.

Record PondParameters := mkPondParameters {
  area : Q;
  depth : Q;
  stocking_density : Z;
  culture_start_date : Z;
  water_color : string;
  shrimp_behavior : string;
  secchi_disk : Q;
  ph : Q;
  location : string
}.

Record GrowthPrediction := mkGrowthPrediction {
  daily_growth : Q;
  weekly_growth : Q;
  estimated_size : Q
}.

Record BiomassEstimation := mkBiomassEstimation {
  estimated_population : Z;
  survival_rate : Q;
  estimated_biomass : Q
}.

Record WaterQuality := mkWaterQuality {
  status : string;
  issues : list string
}.

Record CarryingCapacity := mkCarryingCapacity {
  max_biomass : Q;
  volume : Q
}.

Record FeedSlot := mkFeedSlot {
  time : string;
  percentage : Z
}.

Record FeedingRecommendation := mkFeedingRecommendation {
  daily_feed_kg : Q;
  feeding_schedule : list FeedSlot
}.

Record Recommendation := mkRecommendation {
  issue : string;
  action : string;
  priority : string
}.

Record AnalysisReport := mkAnalysisReport {
  days_of_culture : Z;
  growth_prediction : GrowthPrediction;
  biomass_estimation : BiomassEstimation;
  water_quality : WaterQuality;
  carrying_capacity : CarryingCapacity;
  feeding_recommendation : FeedingRecommendation;
  recommendations : list Recommendation;
  confidence_score : Z
}.

(** ** [AquacultureManager.__init__]: the two tables *)

(** Keys of [VALID_INPUTS], in insertion order. *)
Inductive Categorical := water_color_field | shrimp_behavior_field.

(** Keys of [MEASUREMENT_RANGES] and of [numeric_fields]. *)
Inductive Measure :=
  secchi_disk_field | ph_field | area_field | depth_field
| stocking_density_field.

Definition categorical_name (c : Categorical) : string :=
  match c with
  | water_color_field => "water_color"
  | shrimp_behavior_field => "shrimp_behavior"
  end.

Definition measure_name (m : Measure) : string :=
  match m with
  | secchi_disk_field => "secchi_disk"
  | ph_field => "ph"
  | area_field => "area"
  | depth_field => "depth"
  | stocking_density_field => "stocking_density"
  end.

Definition VALID_INPUTS : list (Categorical * list string) :=
  [ (water_color_field, ["Clear"; "Green"; "Brown"; "Other"]);
    (shrimp_behavior_field, ["Active"; "Lethargic"; "Coming to Surface"]) ].

(** A bound of a range: the number and the text an f-string prints for it
    ([10] prints as 10, [6.0] as 6.0). *)
Record Bound := mkBound { bound_value : Q; bound_text : string }.

Definition MEASUREMENT_RANGES (m : Measure) : Bound * Bound :=
  match m with
  | secchi_disk_field => (mkBound 10 "10", mkBound 60 "60")
  | ph_field => (mkBound 6.0 "6.0", mkBound 9.0 "9.0")
  | area_field => (mkBound 100 "100", mkBound 10000 "10000")
  | depth_field => (mkBound 0.8 "0.8", mkBound 2.5 "2.5")
  | stocking_density_field => (mkBound 15 "15", mkBound 150 "150")
  end.

(** ** [validate_input] *)

Definition getattr (p : PondParameters) (c : Categorical) : string :=
  match c with
  | water_color_field => water_color p
  | shrimp_behavior_field => shrimp_behavior p
  end.

Definition numeric_fields (p : PondParameters) : list (Measure * Q) :=
  [ (secchi_disk_field, secchi_disk p);
    (ph_field, ph p);
    (area_field, area p);
    (depth_field, depth p);
    (stocking_density_field, inject_Z (stocking_density p)) ].

Definition invalid_message (c : Categorical) (valid_values : list string)
  : string :=
  ("Invalid " ++ categorical_name c ++ ". Must be one of: "
     ++ String.concat ", " valid_values)%string.

Definition range_message (m : Measure) : string :=
  let (min_val, max_val) := MEASUREMENT_RANGES m in
  (measure_name m ++ " must be between " ++ bound_text min_val ++ " and "
     ++ bound_text max_val)%string.

Definition future_message : string :=
  "Culture start date cannot be in the future".

(** [value in valid_values] *)
Definition member (value : string) (valid_values : list string) : bool :=
  existsb (String.eqb value) valid_values.

(** [min_val <= value <= max_val] for the range of [m]. *)
Definition in_range (m : Measure) (value : Q) : bool :=
  let (min_val, max_val) := MEASUREMENT_RANGES m in
  between (bound_value min_val) value (bound_value max_val).

Definition check_categorical (p : PondParameters) (errors : list string)
    (entry : Categorical * list string) : list string :=
  let (field, valid_values) := entry in
  if member (getattr p field) valid_values then errors
  else errors ++ [invalid_message field valid_values].

Definition check_measure (errors : list string) (entry : Measure * Q)
  : list string :=
  let (measure, value) := entry in
  if negb (in_range measure value) then errors ++ [range_message measure]
  else errors.

(** Lines 84-111: two loops that append to [errors], then the date check
    against a clock reading. *)
Definition validate_input (p : PondParameters) : IO (list string) :=
  let errors := [] in
  let errors := fold_left (check_categorical p) VALID_INPUTS errors in
  let errors := fold_left check_measure (numeric_fields p) errors in
  now <- datetime_now ;;
  ret (if culture_start_date p >? now then errors ++ [future_message]
       else errors).

(** ** The analysis components *)

(** [_assess_water_quality], lines 143-155. *)
Definition _assess_water_quality (p : PondParameters) : WaterQuality :=
  let water_quality_status := "Good" in
  let issues := [] in
  let (water_quality_status, issues) :=
    if negb (between 6.5 (ph p) 8.5)
    then ("Poor", issues ++ ["pH out of optimal range"])
    else (water_quality_status, issues) in
  let (water_quality_status, issues) :=
    if Qltb (secchi_disk p) 20
    then ("Poor", issues ++ ["Water transparency is too low"])
    else (water_quality_status, issues) in
  mkWaterQuality water_quality_status issues.

(** The three factors and the adjusted rate of [_predict_growth], lines
    159-180; [if weather:] holds exactly when a reading is present. *)
Definition density_factor (p : PondParameters) : Q :=
  if stocking_density p <? 50 then 1.1
  else if stocking_density p >? 100 then 0.9
  else 1.0.

Definition depth_factor (p : PondParameters) : Q :=
  if Qltb (depth p) 1.2 then 0.9
  else if Qltb 1.8 (depth p) then 0.95
  else 1.0.

Definition temp_factor (weather : option WeatherData) : Q :=
  match weather with
  | Some w =>
      if Qltb (temperature w) 25 then 0.8
      else if Qltb 32 (temperature w) then 0.7
      else 1.0
  | None => 1.0
  end.

Definition base_growth : Q := 0.028.

Definition adjusted_growth (p : PondParameters)
    (weather : option WeatherData) : Q :=
  (base_growth * density_factor p * depth_factor p * temp_factor weather)%Q.

(** [_predict_growth], lines 182-187: each output is rounded on its own. *)
Definition _predict_growth (p : PondParameters)
    (weather : option WeatherData) (days : Z) : GrowthPrediction :=
  let adjusted_growth := adjusted_growth p weather in
  {| daily_growth := round_nd adjusted_growth 4;
     weekly_growth := round_nd (adjusted_growth * 7) 4;
     estimated_size := round_nd (0.002 + adjusted_growth * inject_Z days) 4 |}.

(** [_estimate_survival_rate], lines 204-214: reads the clock itself. *)
Definition _estimate_survival_rate (p : PondParameters) : IO Q :=
  now <- datetime_now ;;
  let days := timedelta_days now (culture_start_date p) in
  let base_survival := 0.85%Q in
  let base_survival :=
    if stocking_density p >? 100 then (base_survival * 0.95)%Q
    else base_survival in
  let base_survival :=
    if days >? 60 then (base_survival * 0.98)%Q else base_survival in
  ret (round_nd base_survival 2).

(** [_estimate_biomass], lines 189-202: [estimated_population] is the
    unrounded product; it is rounded for the reported field only. *)
Definition _estimate_biomass (p : PondParameters)
    (growth_prediction : GrowthPrediction) : IO BiomassEstimation :=
  survival_rate <- _estimate_survival_rate p ;;
  let estimated_population :=
    (area p * inject_Z (stocking_density p) * survival_rate)%Q in
  ret {| estimated_population := round_half_even estimated_population;
         survival_rate := survival_rate;
         estimated_biomass :=
           (round_nd (estimated_population * estimated_size growth_prediction)
                     2 / 1000)%Q |}.

(** [_calculate_carrying_capacity], lines 216-224. *)
Definition _calculate_carrying_capacity (p : PondParameters)
  : CarryingCapacity :=
  let volume := (area p * depth p)%Q in
  let max_biomass_per_m3 := 0.4%Q in
  {| max_biomass := round_nd (volume * max_biomass_per_m3) 2;
     volume := round_nd volume 2 |}.

(** [_calculate_feed], lines 226-252. *)
Definition _calculate_feed (estimated_biomass : Q) : FeedingRecommendation :=
  let daily_feed_percentage := 0.03%Q in
  let daily_feed := (estimated_biomass * daily_feed_percentage)%Q in
  {| daily_feed_kg := round_nd daily_feed 2;
     feeding_schedule :=
       [ mkFeedSlot "06:00" 15; mkFeedSlot "09:00" 15; mkFeedSlot "12:00" 15;
         mkFeedSlot "15:00" 15; mkFeedSlot "18:00" 20; mkFeedSlot "21:00" 20 ]
  |}.

(** [_generate_recommendations], lines 254-285.  The guard
    [if water_quality['issues']:] around the loop changes nothing: the loop
    over an empty list appends nothing. *)
Definition _generate_recommendations (p : PondParameters)
    (weather : option WeatherData) (water_quality : WaterQuality)
    (biomass_estimation : BiomassEstimation)
    (carrying_capacity : CarryingCapacity) : list Recommendation :=
  let recommendations := [] in
  let recommendations :=
    if Qltb (max_biomass carrying_capacity * 0.8)
            (estimated_biomass biomass_estimation)
    then recommendations ++
      [ {| issue := "Approaching Carrying Capacity";
           action := "Short term: consider partial harvest, increase aeration. Long term: plan water exchange or pond expansion";
           priority := "High" |} ]
    else recommendations in
  let recommendations :=
    fold_left
      (fun recs issue =>
         recs ++ [ {| issue := issue;
                      action := "Implement water quality management measures";
                      priority := "High" |} ])
      (issues water_quality) recommendations in
  let recommendations :=
    match weather with
    | Some w =>
        if Qltb 32 (temperature w)
        then recommendations ++
          [ {| issue := "High Temperature";
               action := "Increase aeration and monitor oxygen levels";
               priority := "Medium" |} ]
        else recommendations
    | None => recommendations
    end in
  recommendations.

(** [_calculate_confidence], lines 287-308: [not weather] holds exactly when
    the reading is absent; the culture age comes from a clock reading of
    its own. *)
Definition _calculate_confidence (p : PondParameters)
    (weather : option WeatherData) : IO Z :=
  let confidence := 100 in
  let confidence :=
    match weather with None => confidence - 20 | Some _ => confidence end in
  let confidence :=
    if Qltb (ph p) 6.5 || Qltb 8.8 (ph p) then confidence - 10
    else confidence in
  let confidence :=
    if Qltb (secchi_disk p) 15 || Qltb 55 (secchi_disk p)
    then confidence - 10 else confidence in
  let confidence :=
    if stocking_density p >? 120 then confidence - 10 else confidence in
  now <- datetime_now ;;
  let days_of_culture := timedelta_days now (culture_start_date p) in
  let confidence :=
    if days_of_culture >? 100 then confidence - 5 else confidence in
  ret (Z.max confidence 0).

(** ** [analyze_pond] *)

(** Lines 113-141.  The dictionary is built in order, so the confidence
    score is computed last. *)
Definition analyze_pond (p : PondParameters) (weather : option WeatherData)
  : IO AnalysisReport :=
  now <- datetime_now ;;
  let days_of_culture := timedelta_days now (culture_start_date p) in
  let growth_prediction := _predict_growth p weather days_of_culture in
  biomass_estimation <- _estimate_biomass p growth_prediction ;;
  let water_quality := _assess_water_quality p in
  let carrying_capacity := _calculate_carrying_capacity p in
  let feeding_recommendation :=
    _calculate_feed (estimated_biomass biomass_estimation) in
  let recommendations :=
    _generate_recommendations p weather water_quality biomass_estimation
      carrying_capacity in
  confidence <- _calculate_confidence p weather ;;
  ret {| days_of_culture := days_of_culture;
         growth_prediction := growth_prediction;
         biomass_estimation := biomass_estimation;
         water_quality := water_quality;
         carrying_capacity := carrying_capacity;
         feeding_recommendation := feeding_recommendation;
         recommendations := recommendations;
         confidence_score := confidence |}.

(** ** [WeatherAPI.get_weather_data] *)

(** A decoded JSON document.  The members of an object are kept in the
    order of the text; as in [json.loads], the last member with a given
    name is the one a lookup finds. *)
#[warnings="-register-all"]
Inductive Json :=
| JNull
| JBool (b : bool)
| JNumber (q : Q)
| JString (s : string)
| JArray (items : list Json)
| JObject (members : list (string * Json)).

Fixpoint dict_get (key : string) (members : list (string * Json))
  : option Json :=
  match members with
  | [] => None
  | (k, v) :: rest =>
      match dict_get key rest with
      | Some v' => Some v'
      | None => if String.eqb k key then Some v else None
      end
  end.

(** [j[key]] for a string key; [None] stands for the exception raised:
    [KeyError] on an object without the key, [TypeError] on anything that
    is not an object. *)
Definition subscript (j : Json) (key : string) : option Json :=
  match j with
  | JObject members => dict_get key members
  | _ => None
  end.

(** What [requests.get] does for a URL: it raises, or gives a response with
    a status code and a body; the body is [None] when [response.json()]
    raises. *)
Inductive HttpResult :=
| RequestFailed
| Response (status_code : Z) (json : option Json).

(** The [WeatherData] built from a response: the dataclass does not check
    the types of its fields, so they hold whatever JSON values were found. *)
Record FetchedWeather := mkFetchedWeather {
  fetched_temperature : Json;
  fetched_condition : Json;
  fetched_wind_speed : Json;
  fetched_precipitation : Json;
  fetched_timestamp : Z
}.

(** The calls to [logging.error]; the text of the message is not modelled. *)
Inductive LogRecord :=
| LogStatus (status_code : Z)   (* Weather API error: <status> *)
| LogException.                 (* Weather API exception: <text> *)

Definition weather_url (api_key location : string) : string :=
  ("http://api.weatherapi.com/v1/current.json?key=" ++ api_key ++ "&q="
     ++ location)%string.

Definition option_bind {A B : Type} (o : option A) (k : A -> option B)
  : option B :=
  match o with Some a => k a | None => None end.

(** The four lookups, in the order the keyword arguments are evaluated. *)
Definition weather_fields (data : Json) : option (Json * Json * Json * Json) :=
  option_bind (option_bind (subscript data "current")
                 (fun c => subscript c "temp_c")) (fun temperature =>
  option_bind (option_bind (option_bind (subscript data "current")
                 (fun c => subscript c "condition"))
                 (fun c => subscript c "text")) (fun condition =>
  option_bind (option_bind (subscript data "current")
                 (fun c => subscript c "wind_kph")) (fun wind_speed =>
  option_bind (option_bind (subscript data "current")
                 (fun c => subscript c "precip_mm")) (fun precipitation =>
  Some (temperature, condition, wind_speed, precipitation))))).

(** Lines 47-65.  Every exception is caught and turned into [None]; the
    clock is read last, once the four lookups have succeeded. *)
Definition get_weather_data (api_key : string)
    (requests_get : string -> HttpResult) (location : string)
  : IO (option FetchedWeather * list LogRecord) :=
  let url := weather_url api_key location in
  match requests_get url with
  | RequestFailed => ret (None, [LogException])
  | Response status_code body =>
      if status_code =? 200 then
        match body with
        | None => ret (None, [LogException])
        | Some data =>
            match weather_fields data with
            | Some (temperature, condition, wind_speed, precipitation) =>
                now <- datetime_now ;;
                ret (Some {| fetched_temperature := temperature;
                             fetched_condition := condition;
                             fetched_wind_speed := wind_speed;
                             fetched_precipitation := precipitation;
                             fetched_timestamp := now |}, [])
            | None => ret (None, [LogException])
            end
        end
      else ret (None, [LogStatus status_code])
  end.

(** The value found by following [path] from [j]. *)
Fixpoint follow (j : Json) (path : list string) : option Json :=
  match path with
  | [] => Some j
  | key :: rest => option_bind (subscript j key) (fun j' => follow j' rest)
  end.

(** ** Vocabulary of the statements *)


(** [v] is [x] rounded to [n] decimals: a whole number of units of the
    [n]-th decimal, at most half a unit from [x]; on a tie either neighbour
    qualifies. *)
Definition nearest_decimal (n : nat) (x v : Q) : Prop :=
  (exists k : Z, v == inject_Z k / inject_Z (10 ^ Z.of_nat n))%Q
  /\ (Qabs (v - x) <= (1 # 2) / inject_Z (10 ^ Z.of_nat n))%Q.

(** [x] is the penalty charged for [P]: [amount] if [P] holds, else 0. *)
Definition charged (P : Prop) (amount x : Z) : Prop :=
  (P /\ x = amount) \/ (~ P /\ x = 0).

(** Whole days between the culture start of [p] and the [i]-th clock reading
    taken from [w] on. *)
Definition culture_days (p : PondParameters) (w : World) (i : nat) : Z :=
  timedelta_days (clock w (reads w + i)) (culture_start_date p).

(** The value of the numeric field [m], as [numeric_fields] lists it. *)
Definition measure_value (p : PondParameters) (m : Measure) : Q :=
  match m with
  | secchi_disk_field => secchi_disk p
  | ph_field => ph p
  | area_field => area p
  | depth_field => depth p
  | stocking_density_field => inject_Z (stocking_density p)
  end.

Definition lower (m : Measure) : Q := bound_value (fst (MEASUREMENT_RANGES m)).
Definition upper (m : Measure) : Q := bound_value (snd (MEASUREMENT_RANGES m)).

(** The numeric fields in the order [numeric_fields] lists them. *)
Definition measures : list Measure :=
  [ secchi_disk_field; ph_field; area_field; depth_field;
    stocking_density_field ].

(** How many of the checks of [validate_input] fail. *)
Definition categorical_failures (p : PondParameters) : nat :=
  List.length (filter (fun e : Categorical * list string =>
                    negb (member (getattr p (fst e)) (snd e))) VALID_INPUTS).

Definition range_failures (p : PondParameters) : nat :=
  List.length (filter (fun m => negb (in_range m (measure_value p m))) measures).

Definition date_failures (p : PondParameters) (now : Z) : nat :=
  if culture_start_date p >? now then 1 else 0.

(** Every message [validate_input] can return, in the order of its checks. *)
Definition all_messages : list string :=
  map (fun e : Categorical * list string => invalid_message (fst e) (snd e))
      VALID_INPUTS
  ++ map range_message measures ++ [future_message].

(** [l1] is [l2] with some elements left out. *)
Inductive subsequence {A : Type} : list A -> list A -> Prop :=
| subsequence_nil : subsequence [] []
| subsequence_skip (x : A) (l1 l2 : list A) :
    subsequence l1 l2 -> subsequence l1 (x :: l2)
| subsequence_keep (x : A) (l1 l2 : list A) :
    subsequence l1 l2 -> subsequence (x :: l1) (x :: l2).

(** ** The three kinds of recommendation *)

Definition capacity_recommendation : Recommendation :=
  {| issue := "Approaching Carrying Capacity";
     action := "Short term: consider partial harvest, increase aeration. Long term: plan water exchange or pond expansion";
     priority := "High" |}.

Definition water_recommendation (i : string) : Recommendation :=
  {| issue := i;
     action := "Implement water quality management measures";
     priority := "High" |}.

Definition heat_recommendation : Recommendation :=
  {| issue := "High Temperature";
     action := "Increase aeration and monitor oxygen levels";
     priority := "Medium" |}.

(** The reading is present and above 32 degrees. *)
Definition hot (weather : option WeatherData) : Prop :=
  exists wd : WeatherData, weather = Some wd /\ (32 < temperature wd)%Q.

(** ** Issue texts *)

Definition ph_issue : string := "pH out of optimal range".
Definition transparency_issue : string := "Water transparency is too low".

(** ** Sample inputs *)

Definition DAY : Z := MICROSECONDS_PER_DAY.

(** The pond of the end-to-end scenario: every factor neutral. *)
Definition reference_pond : PondParameters :=
  {| area := 1000; depth := 1.5; stocking_density := 80;
     culture_start_date := 0; water_color := "Clear";
     shrimp_behavior := "Active"; secchi_disk := 30; ph := 7.5;
     location := "Ranipet" |}.

Definition mild_weather : WeatherData :=
  {| temperature := 28; condition := "Sunny"; wind_speed := 3;
     precipitation := 0; timestamp := 0 |}.


(** A valid shallow, lightly stocked pond: growth rate 0.02772 g/day. *)
Definition shallow_pond : PondParameters :=
  {| area := 1000; depth := 1.0; stocking_density := 15;
     culture_start_date := 0; water_color := "Green";
     shrimp_behavior := "Active"; secchi_disk := 30; ph := 7.5;
     location := "Ranipet" |}.

(** The pond of the confidence example: density 130, pH 7, Secchi 30. *)
Definition crowded_pond : PondParameters :=
  {| area := 1000; depth := 1.5; stocking_density := 130;
     culture_start_date := 0; water_color := "Clear";
     shrimp_behavior := "Active"; secchi_disk := 30; ph := 7;
     location := "Ranipet" |}.

(** A valid pond stocked just above 100 per m2. *)
Definition dense_pond : PondParameters :=
  {| area := 1000; depth := 1.5; stocking_density := 101;
     culture_start_date := 0; water_color := "Clear";
     shrimp_behavior := "Active"; secchi_disk := 30; ph := 7.5;
     location := "Ranipet" |}.

(** Weather hotter than 32 degrees. *)
Definition heat_wave : WeatherData :=
  {| temperature := 35; condition := "Sunny"; wind_speed := 3;
     precipitation := 0; timestamp := 0 |}.

(** * Properties *)

(** ** Comparisons and rounding *)

Example round_half_even_samples :
  map round_half_even [0.5; 1.5; 2.5; -0.5; -1.5; 2.4; 2.6; -2.6]%Q
  = [0; 2; 2; 0; -2; 2; 3; -3].
Proof. reflexivity. Qed.

Example round_nd_samples :
  (round_nd 0.8075 2 == 0.81 /\ round_nd 1778.5485 2 == 1778.55)%Q.
Proof. split; reflexivity. Qed.

Section Rounding.

Local Open Scope Q_scope.

Lemma Qleb_spec (x y : Q) : Qleb x y = true <-> x <= y.
Proof. apply Qle_bool_iff. Qed.

Lemma Qltb_spec (x y : Q) : Qltb x y = true <-> x < y.
Proof.
  unfold Qltb. rewrite negb_true_iff.
  split; intro H.
  - apply Qnot_le_lt. intro Hle. apply Qle_bool_iff in Hle. congruence.
  - destruct (Qle_bool y x) eqn:E; [|reflexivity].
    apply Qle_bool_iff in E. exfalso. apply (Qlt_not_le _ _ H E).
Qed.

Lemma Qltb_false (x y : Q) : Qltb x y = false <-> y <= x.
Proof.
  unfold Qltb. rewrite negb_false_iff. apply Qle_bool_iff.
Qed.

Lemma between_spec (a x b : Q) : between a x b = true <-> a <= x /\ x <= b.
Proof.
  unfold between. rewrite andb_true_iff, !Qleb_spec. tauto.
Qed.

Lemma between_false (a x b : Q) : between a x b = false <-> x < a \/ b < x.
Proof.
  unfold between. rewrite andb_false_iff. unfold Qleb.
  split.
  - intros [H | H]; [left | right]; apply Qltb_spec; unfold Qltb;
      rewrite H; reflexivity.
  - intros [H | H]; [left | right]; apply Qltb_spec in H; unfold Qltb in H;
      apply negb_true_iff in H; exact H.
Qed.

(** Rounding moves a number by at most one half. *)
Lemma round_half_even_near (x : Q) :
  inject_Z (round_half_even x) - (1 # 2) <= x
  /\ x <= inject_Z (round_half_even x) + (1 # 2).
Proof.
  unfold round_half_even.
  pose proof (Qfloor_le x) as Hlo.
  pose proof (Qlt_floor x) as Hhi.
  rewrite inject_Z_plus in Hhi.
  change (inject_Z 1) with 1 in Hhi.
  destruct (Qcompare_spec (x - inject_Z (Qfloor x)) (1 # 2)) as [He | Hl | Hg].
  - destruct (Z.even (Qfloor x)).
    + split; lra.
    + rewrite inject_Z_plus. change (inject_Z 1) with 1. split; lra.
  - split; lra.
  - rewrite inject_Z_plus. change (inject_Z 1) with 1. split; lra.
Qed.

(** Numbers more than one apart keep their order, strictly, when rounded. *)
Lemma round_half_even_lt (x y : Q) :
  x + 1 < y -> (round_half_even x < round_half_even y)%Z.
Proof.
  intro H.
  destruct (round_half_even_near x) as [Hx _].
  destruct (round_half_even_near y) as [_ Hy].
  rewrite Zlt_Qlt. lra.
Qed.

Lemma scale_pos (n : nat) : 0 < inject_Z (10 ^ Z.of_nat n).
Proof.
  change 0 with (inject_Z 0). rewrite <- Zlt_Qlt.
  apply Z.pow_pos_nonneg; lia.
Qed.

(** [round(x, n)] is within half a unit of the [n]-th decimal of [x]. *)
Lemma round_nd_near (x : Q) (n : nat) :
  Qabs (round_nd x n - x) <= (1 # 2) / inject_Z (10 ^ Z.of_nat n).
Proof.
  unfold round_nd.
  pose proof (scale_pos n) as Hs.
  set (s := inject_Z (10 ^ Z.of_nat n)) in *.
  destruct (round_half_even_near (x * s)) as [Hlo Hhi].
  set (r := inject_Z (round_half_even (x * s))) in *.
  apply Qabs_Qle_condition.
  assert (Hne : ~ s == 0) by lra.
  split.
  - apply Qmult_le_r with (z := s); [exact Hs|].
    field_simplify; [|exact Hne|exact Hne]. lra.
  - apply Qmult_le_r with (z := s); [exact Hs|].
    field_simplify; [|exact Hne|exact Hne]. lra.
Qed.

(** Numbers more than one unit of the [n]-th decimal apart keep their
    order, strictly, when rounded to [n] decimals. *)
Lemma round_nd_lt (x y : Q) (n : nat) :
  x * inject_Z (10 ^ Z.of_nat n) + 1 < y * inject_Z (10 ^ Z.of_nat n) ->
  round_nd x n < round_nd y n.
Proof.
  intro H. unfold round_nd.
  pose proof (scale_pos n) as Hs.
  apply round_half_even_lt in H. rewrite Zlt_Qlt in H.
  set (s := inject_Z (10 ^ Z.of_nat n)) in *.
  apply Qmult_lt_r with (z := s); [exact Hs|].
  assert (Hne : ~ s == 0) by lra.
  field_simplify; [|exact Hne|exact Hne]. lra.
Qed.


Lemma round_nd_nearest (x : Q) (n : nat) : nearest_decimal n x (round_nd x n).
Proof.
  split; [|apply round_nd_near].
  exists (round_half_even (x * inject_Z (10 ^ Z.of_nat n))). reflexivity.
Qed.


End Rounding.

(** ** Biomass estimation *)

Section Biomass.

Local Open Scope Q_scope.

(** The survival rate and the biomass figures of a report are those of the
    biomass estimator run after one clock reading. *)
Lemma analyze_pond_biomass (p : PondParameters) (weather : option WeatherData)
    (w : World) :
  biomass_estimation (run (analyze_pond p weather) w)
  = run (_estimate_biomass p
           (_predict_growth p weather
              (timedelta_days (clock w (reads w)) (culture_start_date p))))
        (mkWorld (clock w) (S (reads w))).
Proof. reflexivity. Qed.

(** The three fields of a biomass estimation, from the survival rate the
    estimator obtains. *)
Lemma estimate_biomass_fields (p : PondParameters) (g : GrowthPrediction)
    (w : World) :
  let b := run (_estimate_biomass p g) w in
  let product :=
    area p * inject_Z (stocking_density p)
    * run (_estimate_survival_rate p) w in
  survival_rate b = run (_estimate_survival_rate p) w
  /\ estimated_population b = round_half_even product
  /\ estimated_biomass b = round_nd (product * estimated_size g) 2 / 1000.
Proof. repeat split. Qed.



End Biomass.

(** ** Growth model *)

Section Growth.

Local Open Scope Q_scope.

Lemma density_factor_cases (p : PondParameters) :
  density_factor p = 1.1 \/ density_factor p = 0.9 \/ density_factor p = 1.0.
Proof.
  unfold density_factor.
  destruct (stocking_density p <? 50)%Z; [now left|].
  destruct (stocking_density p >? 100)%Z; [right; now left | right; now right].
Qed.

Lemma depth_factor_cases (p : PondParameters) :
  depth_factor p = 0.9 \/ depth_factor p = 0.95 \/ depth_factor p = 1.0.
Proof.
  unfold depth_factor.
  destruct (Qltb (depth p) 1.2); [now left|].
  destruct (Qltb 1.8 (depth p)); [right; now left | right; now right].
Qed.

Lemma temp_factor_cases (weather : option WeatherData) :
  temp_factor weather = 0.8 \/ temp_factor weather = 0.7
  \/ temp_factor weather = 1.0.
Proof.
  unfold temp_factor. destruct weather as [wd|]; [|right; now right].
  destruct (Qltb (temperature wd) 25); [now left|].
  destruct (Qltb 32 (temperature wd)); [right; now left | right; now right].
Qed.

(** Whatever the pond and the weather, the adjusted rate stays between the
    slowest (0.028 x 0.9 x 0.9 x 0.7) and the fastest (0.028 x 1.1) one. *)
Lemma adjusted_growth_bounds (p : PondParameters)
    (weather : option WeatherData) :
  0.015876 <= adjusted_growth p weather
  /\ adjusted_growth p weather <= 0.0308.
Proof.
  unfold adjusted_growth, base_growth.
  destruct (density_factor_cases p) as [-> | [-> | ->]];
    destruct (depth_factor_cases p) as [-> | [-> | ->]];
    destruct (temp_factor_cases weather) as [-> | [-> | ->]];
    split; apply Qle_bool_iff; reflexivity.
Qed.

(** C3, as stated, fails: for a pond 1.0 m deep stocked at 15 per m2, 10 days
    into the culture and without weather, the adjusted rate is 0.02772 and
    the daily figure 0.0277; the weekly figure is 0.194, not 0.0277 x 7, and
    the size is 0.2792, not 0.002 + 0.0277 x 10 rounded to four decimals. *)
Lemma growth_not_from_rounded_daily :
  let g := _predict_growth shallow_pond None 10 in
  daily_growth g == 0.0277
  /\ weekly_growth g == 0.194
  /\ estimated_size g == 0.2792
  /\ ~ weekly_growth g == daily_growth g * 7
  /\ ~ estimated_size g == round_nd (0.002 + daily_growth g * inject_Z 10) 4.
Proof.
  repeat split; try reflexivity; vm_compute; intro H; discriminate H.
Qed.

(** C3, amended: the daily figure is the adjusted rate
    0.028 x density x depth x temperature factor rounded to a nearest
    fourth decimal; the weekly figure is the unrounded adjusted rate x 7,
    and the size 0.002 + unrounded adjusted rate x days, each rounded to a
    nearest fourth decimal; which way an exact half goes is left open.  The
    weekly figure is therefore within 0.0004 of daily x 7, and the size
    within 0.00005 x (|days| + 1) of 0.002 + daily x days. *)
Theorem growth_from_unrounded_rate (p : PondParameters)
    (weather : option WeatherData) (days : Z) :
  let g := _predict_growth p weather days in
  let rate :=
    base_growth * density_factor p * depth_factor p * temp_factor weather in
  nearest_decimal 4 rate (daily_growth g)
  /\ nearest_decimal 4 (rate * 7) (weekly_growth g)
  /\ nearest_decimal 4 (0.002 + rate * inject_Z days) (estimated_size g)
  /\ Qabs (weekly_growth g - daily_growth g * 7) <= 0.0004
  /\ Qabs (estimated_size g - (0.002 + daily_growth g * inject_Z days))
     <= 0.00005 * (Qabs (inject_Z days) + 1).
Proof.
  intros g rate. subst g. cbn [_predict_growth daily_growth weekly_growth
    estimated_size]. fold rate. change (adjusted_growth p weather) with rate.
  split; [apply round_nd_nearest|].
  split; [apply round_nd_nearest|].
  split; [apply round_nd_nearest|].
  split.
  - pose proof (round_nd_near rate 4) as Hd.
    pose proof (round_nd_near (rate * 7) 4) as Hw.
    apply Qabs_Qle_condition in Hd. apply Qabs_Qle_condition in Hw.
    change ((1 # 2) / inject_Z (10 ^ Z.of_nat 4)) with (1 # 20000) in *.
    apply Qabs_Qle_condition. split; lra.
  - pose proof (round_nd_near rate 4) as Hd.
    pose proof (round_nd_near (0.002 + rate * inject_Z days) 4) as Hs.
    apply Qabs_Qle_condition in Hd. apply Qabs_Qle_condition in Hs.
    change ((1 # 2) / inject_Z (10 ^ Z.of_nat 4)) with (1 # 20000) in *.
    set (d := round_nd rate 4) in *.
    set (s := round_nd (0.002 + rate * inject_Z days) 4) in *.
    set (n := inject_Z days) in *.
    apply Qabs_Qle_condition.
    destruct (Qlt_le_dec n 0) as [Hn | Hn].
    + rewrite (Qabs_neg n) by lra. split; nra.
    + rewrite (Qabs_pos n) by lra. split; nra.
Qed.

End Growth.

Section GrowthMonotone.

Local Open Scope Q_scope.

(** C7: for a fixed pond and weather, and culture ages 0 <= d1 < d2, the
    estimated size at d2 is strictly greater than the one at d1, the rounding
    to four decimals notwithstanding: one more day adds at least 0.015876 g,
    far more than one unit of the fourth decimal. *)
Theorem estimated_size_strictly_increasing (p : PondParameters)
    (weather : option WeatherData) (d1 d2 : Z) :
  (0 <= d1 < d2)%Z ->
  estimated_size (_predict_growth p weather d1)
  < estimated_size (_predict_growth p weather d2).
Proof.
  intros [_ Hlt]. cbn [_predict_growth estimated_size].
  destruct (adjusted_growth_bounds p weather) as [Hlo _].
  set (a := adjusted_growth p weather) in *.
  apply round_nd_lt.
  change (inject_Z (10 ^ Z.of_nat 4)) with 10000.
  assert (Hd : inject_Z d1 + 1 <= inject_Z d2).
  { change 1 with (inject_Z 1). rewrite <- inject_Z_plus, <- Zle_Qle. lia. }
  set (x1 := inject_Z d1) in *. set (x2 := inject_Z d2) in *.
  nra.
Qed.

(** The reference pond under mild weather, at 45 and 46 days. *)
Lemma estimated_size_strictly_increasing_witness :
  (0 <= 45 < 46)%Z
  /\ estimated_size (_predict_growth reference_pond (Some mild_weather) 45)
     < estimated_size (_predict_growth reference_pond (Some mild_weather) 46).
Proof.
  split; [lia|].
  apply (estimated_size_strictly_increasing reference_pond
           (Some mild_weather) 45 46).
  lia.
Defined.

End GrowthMonotone.

(** ** Feed planner *)

Section Feed.

Local Open Scope Q_scope.

(** C8, as stated, fails: 0.1 kg of biomass gets 0 kg of feed, not 0.003 kg,
    and ten times that biomass gets 0.03 kg, not ten times 0 kg. *)
Lemma daily_feed_not_linear :
  daily_feed_kg (_calculate_feed 0.1) == 0
  /\ ~ daily_feed_kg (_calculate_feed 0.1) == 0.03 * 0.1
  /\ daily_feed_kg (_calculate_feed (10 * 0.1)) == 0.03
  /\ ~ daily_feed_kg (_calculate_feed (10 * 0.1))
       == 10 * daily_feed_kg (_calculate_feed 0.1).
Proof.
  repeat split; try reflexivity; vm_compute; intro H; discriminate H.
Qed.

(** C8, amended: the daily feed is biomass x 0.03 rounded to a nearest
    hundredth of a kilogram, which way an exact half goes being left open;
    it lies within 0.005 kg of 0.03 x biomass, and scaling the biomass by k
    scales it by k up to 0.005 x (1 + |k|) kg. *)
Theorem daily_feed_linear_up_to_rounding (b : Q) :
  nearest_decimal 2 (b * 0.03) (daily_feed_kg (_calculate_feed b))
  /\ Qabs (daily_feed_kg (_calculate_feed b) - 0.03 * b) <= 0.005
  /\ forall k : Q,
       Qabs (daily_feed_kg (_calculate_feed (k * b))
             - k * daily_feed_kg (_calculate_feed b))
       <= 0.005 * (1 + Qabs k).
Proof.
  cbn [_calculate_feed daily_feed_kg].
  split; [apply round_nd_nearest|].
  assert (Hnear : forall x, Qabs (round_nd (x * 0.03) 2 - 0.03 * x) <= 0.005).
  { intro x. pose proof (round_nd_near (x * 0.03) 2) as H.
    apply Qabs_Qle_condition in H.
    change ((1 # 2) / inject_Z (10 ^ Z.of_nat 2)) with (1 # 200) in H.
    apply Qabs_Qle_condition. split; lra. }
  split; [apply Hnear|].
  intro k.
  pose proof (Hnear b) as Hb. pose proof (Hnear (k * b)) as Hkb.
  apply Qabs_Qle_condition in Hb. apply Qabs_Qle_condition in Hkb.
  set (f := round_nd (b * 0.03) 2) in *.
  set (g := round_nd (k * b * 0.03) 2) in *.
  apply Qabs_Qle_condition.
  destruct (Qlt_le_dec k 0) as [Hk | Hk].
  - rewrite (Qabs_neg k) by lra. split; nra.
  - rewrite (Qabs_pos k) by lra. split; nra.
Qed.

(** The six slots of the fixed schedule share out the whole daily feed. *)
Lemma feeding_schedule_total (b : Q) :
  fold_right Z.add 0%Z (map percentage (feeding_schedule (_calculate_feed b)))
  = 100%Z.
Proof. reflexivity. Qed.

End Feed.

(** ** Survival estimator *)

Section Survival.

Local Open Scope Q_scope.

(** The rate is decided by two tests: density above 100 and more than 60
    days between the culture start and the clock reading taken here. *)
Lemma estimate_survival_rate_table (p : PondParameters) (w : World) :
  let days := timedelta_days (clock w (reads w)) (culture_start_date p) in
  run (_estimate_survival_rate p) w
  == match (stocking_density p >? 100)%Z, (days >? 60)%Z with
     | false, false => 0.85
     | true, false => 0.81
     | false, true => 0.83
     | true, true => 0.79
     end.
Proof.
  unfold run, _estimate_survival_rate, bind, datetime_now, ret.
  cbn [fst clock reads].
  destruct (stocking_density p >? 100)%Z;
    destruct (timedelta_days (clock w (reads w)) (culture_start_date p)
              >? 60)%Z; reflexivity.
Qed.

(** C10: the survival rate is one of 0.79, 0.81, 0.83 and 0.85, each of
    which occurs, and so lies strictly between 0 and 1. *)
Theorem survival_rate_four_values :
  (forall (p : PondParameters) (w : World),
     let s := run (_estimate_survival_rate p) w in
     (s == 0.79 \/ s == 0.81 \/ s == 0.83 \/ s == 0.85) /\ 0 < s /\ s < 1)
  /\ run (_estimate_survival_rate dense_pond) (frozen (61 * DAY)) == 0.79
  /\ run (_estimate_survival_rate dense_pond) (frozen (60 * DAY)) == 0.81
  /\ run (_estimate_survival_rate reference_pond) (frozen (61 * DAY)) == 0.83
  /\ run (_estimate_survival_rate reference_pond) (frozen (60 * DAY)) == 0.85.
Proof.
  split; [|repeat split; reflexivity].
  intros p w s. subst s.
  pose proof (estimate_survival_rate_table p w) as H. cbv zeta in H.
  destruct (stocking_density p >? 100)%Z;
    destruct (timedelta_days (clock w (reads w)) (culture_start_date p)
              >? 60)%Z;
    rewrite H; (split; [|split; reflexivity]);
    first [ left; reflexivity
          | right; left; reflexivity
          | right; right; left; reflexivity
          | right; right; right; reflexivity ].
Qed.

End Survival.

(** ** Water quality *)

Section WaterQualityProps.

Local Open Scope Q_scope.

(** C9: the status is Good with no issue exactly when 6.5 <= pH <= 8.5 and
    the Secchi depth is at least 20; a pH outside [6.5, 8.5] contributes
    exactly the pH issue, a Secchi depth below 20 exactly the transparency
    issue, in that order, and either makes the status Poor. *)
Theorem water_quality_verdict (p : PondParameters) :
  let q := _assess_water_quality p in
  let ph_out := ph p < 6.5 \/ 8.5 < ph p in
  let murky := secchi_disk p < 20 in
  ((status q = "Good" /\ issues q = [])
   <-> (6.5 <= ph p /\ ph p <= 8.5) /\ 20 <= secchi_disk p)
  /\ (status q = "Poor" <-> ph_out \/ murky)
  /\ (ph_out /\ ~ murky <-> issues q = [ph_issue])
  /\ (~ ph_out /\ murky <-> issues q = [transparency_issue])
  /\ (ph_out /\ murky <-> issues q = [ph_issue; transparency_issue]).
Proof.
  intros q ph_out murky. subst q ph_out murky.
  unfold _assess_water_quality, ph_issue, transparency_issue.
  destruct (between 6.5 (ph p) 8.5) eqn:Eph;
    [apply between_spec in Eph | apply between_false in Eph];
    (destruct (Qltb (secchi_disk p) 20) eqn:Esd;
     [apply Qltb_spec in Esd | apply Qltb_false in Esd]);
    cbn [negb status issues app];
    repeat split; intros;
    repeat match goal with
           | H : _ /\ _ |- _ => destruct H
           | H : ~ _ |- _ => try (exfalso; apply H; lra)
           end;
    try discriminate; try lra; try tauto;
    try (intro; lra);
    try (destruct Eph; [left | right]; lra);
    try (left; destruct Eph; [left | right]; lra);
    try (right; lra).
Qed.

End WaterQualityProps.

(** ** Confidence score *)

Section Confidence.

Local Open Scope Q_scope.

Lemma charged_if (c : bool) (P : Prop) (amount : Z) :
  (c = true <-> P) -> charged P amount (if c then amount else 0%Z).
Proof.
  intros H. unfold charged. destruct c.
  - left. split; [apply H|]; reflexivity.
  - right. split; [|reflexivity]. intro HP. apply H in HP. discriminate.
Qed.

Lemma outside_spec (x a b : Q) :
  Qltb x a || Qltb b x = true <-> x < a \/ b < x.
Proof. rewrite orb_true_iff, !Qltb_spec. tauto. Qed.

Lemma Zgtb_spec (x y : Z) : (x >? y)%Z = true <-> (x > y)%Z.
Proof. rewrite Z.gtb_ltb, Z.ltb_lt. lia. Qed.

(** C5: the score is 100 minus 20 if the weather is absent, 10 if the pH is
    below 6.5 or above 8.8, 10 if the Secchi depth is below 15 or above 55,
    10 if the density is above 120 and 5 if more than 100 days separate the
    culture start from the clock reading taken here; it lies in [0, 100];
    density 130, pH 7, Secchi 30, no weather and 50 days give 70. *)
Theorem confidence_score_penalties :
  (forall (p : PondParameters) (weather : option WeatherData) (w : World),
     let score := run (_calculate_confidence p weather) w in
     exists a b c d e : Z,
       charged (weather = None) 20 a
       /\ charged (ph p < 6.5 \/ 8.8 < ph p) 10 b
       /\ charged (secchi_disk p < 15 \/ 55 < secchi_disk p) 10 c
       /\ charged (stocking_density p > 120)%Z 10 d
       /\ charged (culture_days p w 0 > 100)%Z 5 e
       /\ score = (100 - a - b - c - d - e)%Z
       /\ (0 <= score <= 100)%Z)
  /\ run (_calculate_confidence crowded_pond None) (frozen (50 * DAY)) = 70%Z.
Proof.
  split; [|reflexivity].
  intros p weather w score. subst score.
  unfold culture_days. rewrite Nat.add_0_r.
  exists (match weather with None => 20 | Some _ => 0 end)%Z,
    (if Qltb (ph p) 6.5 || Qltb 8.8 (ph p) then 10 else 0)%Z,
    (if Qltb (secchi_disk p) 15 || Qltb 55 (secchi_disk p)
     then 10 else 0)%Z,
    (if (stocking_density p >? 120)%Z then 10 else 0)%Z,
    (if (timedelta_days (clock w (reads w)) (culture_start_date p) >? 100)%Z
     then 5 else 0)%Z.
  split; [|split; [|split; [|split; [|split]]]].
  - unfold charged. destruct weather; [right | left]; split;
      congruence.
  - apply charged_if, outside_spec.
  - apply charged_if, outside_spec.
  - apply charged_if, Zgtb_spec.
  - apply charged_if, Zgtb_spec.
  - unfold run, _calculate_confidence, bind, datetime_now, ret.
    cbn [fst clock reads].
    destruct weather;
      destruct (Qltb (ph p) 6.5 || Qltb 8.8 (ph p));
      destruct (Qltb (secchi_disk p) 15 || Qltb 55 (secchi_disk p));
      destruct (stocking_density p >? 120)%Z;
      destruct (timedelta_days (clock w (reads w)) (culture_start_date p)
                >? 100)%Z;
      cbn; split; lia.
Qed.

End Confidence.

(** ** Orchestration and the clock *)

Section Orchestration.

(** One analysis reads the clock three times: the reported culture age and
    the growth model use the first reading, the survival estimator the
    second, the confidence scorer the third. *)
Lemma analyze_pond_readings (p : PondParameters)
    (weather : option WeatherData) (w : World) :
  let r := run (analyze_pond p weather) w in
  days_of_culture r = culture_days p w 0
  /\ growth_prediction r = _predict_growth p weather (culture_days p w 0)
  /\ survival_rate (biomass_estimation r)
     = run (_estimate_survival_rate p) (mkWorld (clock w) (reads w + 1))
  /\ confidence_score r
     = run (_calculate_confidence p weather) (mkWorld (clock w) (reads w + 2))
  /\ reads (snd (analyze_pond p weather w)) = (reads w + 3)%nat.
Proof.
  unfold culture_days.
  replace (reads w + 0)%nat with (reads w) by lia.
  replace (reads w + 1)%nat with (S (reads w)) by lia.
  replace (reads w + 2)%nat with (S (S (reads w))) by lia.
  replace (reads w + 3)%nat with (S (S (S (reads w)))) by lia.
  repeat split.
Qed.

(** C2 fails on the code.  When the clock passes from just under 61 days to
    61 days of culture between the first and the second reading, the report
    says 60 days and sizes the shrimp for 60 days, while the survival rate
    is the one for more than 60 days (0.83, not 0.85).  Likewise around 101
    days: the report says 100 days, the confidence score carries the penalty
    for more than 100 days (95, not 100). *)
Lemma days_of_culture_read_per_consumer :
  (let w := ticking [61 * DAY - 1] (61 * DAY) in
   let r := run (analyze_pond reference_pond (Some mild_weather)) w in
   days_of_culture r = 60%Z
   /\ (estimated_size (growth_prediction r) == 0.002 + 0.028 * 60)%Q
   /\ culture_days reference_pond w 1 = 61%Z
   /\ (survival_rate (biomass_estimation r) == 0.83)%Q
   /\ (survival_rate
         (biomass_estimation
            (run (analyze_pond reference_pond (Some mild_weather))
               (frozen (61 * DAY - 1)))) == 0.85)%Q)
  /\ (let w := ticking [101 * DAY - 1; 101 * DAY - 1] (101 * DAY) in
      let r := run (analyze_pond reference_pond (Some mild_weather)) w in
      days_of_culture r = 100%Z
      /\ culture_days reference_pond w 2 = 101%Z
      /\ confidence_score r = 95%Z
      /\ confidence_score
           (run (analyze_pond reference_pond (Some mild_weather))
              (frozen (101 * DAY - 1))) = 100%Z).
Proof. repeat split. Qed.

(** C4, as stated, fails: the same pond and weather analysed at 45 and at 46
    days of culture give different reports. *)
Lemma analyze_pond_depends_on_clock :
  run (analyze_pond reference_pond (Some mild_weather)) (frozen (45 * DAY))
  <> run (analyze_pond reference_pond (Some mild_weather))
       (frozen (46 * DAY)).
Proof.
  intro H. apply (f_equal days_of_culture) in H. vm_compute in H.
  discriminate H.
Qed.

(** C4, amended: two analyses of the same pond and weather give the same
    report whenever their three clock readings give, one by one, the same
    whole number of days since the culture start. *)
Theorem analyze_pond_deterministic_in_days (p : PondParameters)
    (weather : option WeatherData) (w1 w2 : World) :
  (forall i : nat, (i < 3)%nat -> culture_days p w1 i = culture_days p w2 i) ->
  run (analyze_pond p weather) w1 = run (analyze_pond p weather) w2.
Proof.
  intro H.
  pose proof (H 0%nat ltac:(lia)) as H0.
  pose proof (H 1%nat ltac:(lia)) as H1.
  pose proof (H 2%nat ltac:(lia)) as H2.
  unfold culture_days in H0, H1, H2.
  replace (reads w1 + 0)%nat with (reads w1) in H0 by lia.
  replace (reads w2 + 0)%nat with (reads w2) in H0 by lia.
  replace (reads w1 + 1)%nat with (S (reads w1)) in H1 by lia.
  replace (reads w2 + 1)%nat with (S (reads w2)) in H1 by lia.
  replace (reads w1 + 2)%nat with (S (S (reads w1))) in H2 by lia.
  replace (reads w2 + 2)%nat with (S (S (reads w2))) in H2 by lia.
  unfold run, analyze_pond, _estimate_biomass, _estimate_survival_rate,
    _calculate_confidence, bind, datetime_now, ret.
  cbn [fst snd clock reads].
  rewrite H0, H1, H2. reflexivity.
Qed.

(** Two analyses of the reference pond, both within its 46th day. *)
Lemma analyze_pond_deterministic_in_days_witness :
  (forall i : nat, (i < 3)%nat ->
     culture_days reference_pond (frozen (45 * DAY)) i
     = culture_days reference_pond (ticking [45 * DAY + 1] (45 * DAY + 7)) i)
  /\ run (analyze_pond reference_pond (Some mild_weather))
       (frozen (45 * DAY))
     = run (analyze_pond reference_pond (Some mild_weather))
         (ticking [45 * DAY + 1] (45 * DAY + 7)).
Proof.
  assert (Hd : forall i : nat, (i < 3)%nat ->
     culture_days reference_pond (frozen (45 * DAY)) i
     = culture_days reference_pond (ticking [45 * DAY + 1] (45 * DAY + 7)) i).
  { intros i Hi.
    destruct i as [|[|[|i]]]; [reflexivity | reflexivity | reflexivity | lia]. }
  split; [exact Hd|].
  apply (analyze_pond_deterministic_in_days reference_pond
           (Some mild_weather) (frozen (45 * DAY))
           (ticking [45 * DAY + 1] (45 * DAY + 7)) Hd).
Defined.

End Orchestration.

(** ** Validator *)

Section Validator.

Local Open Scope Q_scope.

Lemma numeric_fields_measures (p : PondParameters) :
  numeric_fields p = map (fun m => (m, measure_value p m)) measures.
Proof. reflexivity. Qed.

(** The loop over the numeric fields appends, in order, one message per
    field out of its range. *)
Lemma fold_check_measure (l : list (Measure * Q)) (errors : list string) :
  fold_left check_measure l errors
  = errors ++ flat_map (fun e : Measure * Q =>
                          if in_range (fst e) (snd e) then []
                          else [range_message (fst e)]) l.
Proof.
  revert errors. induction l as [|[m v] l IH]; intro errors; cbn [fold_left].
  - cbn. now rewrite app_nil_r.
  - rewrite IH. cbn [check_measure flat_map fst snd].
    destruct (in_range m v); cbn [negb].
    + reflexivity.
    + now rewrite <- app_assoc.
Qed.

(** Likewise for the loop over the categorical fields. *)
Lemma fold_check_categorical (p : PondParameters)
    (l : list (Categorical * list string)) (errors : list string) :
  fold_left (check_categorical p) l errors
  = errors ++ flat_map (fun e : Categorical * list string =>
                          if member (getattr p (fst e)) (snd e) then []
                          else [invalid_message (fst e) (snd e)]) l.
Proof.
  revert errors. induction l as [|[c vs] l IH]; intro errors; cbn [fold_left].
  - cbn. now rewrite app_nil_r.
  - rewrite IH. cbn [check_categorical flat_map fst snd].
    destruct (member (getattr p c) vs).
    + reflexivity.
    + now rewrite <- app_assoc.
Qed.

(** The list [validate_input] returns: categorical messages, then range
    messages, then the date message. *)
Lemma validate_input_parts (p : PondParameters) (w : World) :
  run (validate_input p) w
  = flat_map (fun e : Categorical * list string =>
                if member (getattr p (fst e)) (snd e) then []
                else [invalid_message (fst e) (snd e)]) VALID_INPUTS
    ++ flat_map (fun m => if in_range m (measure_value p m) then []
                          else [range_message m]) measures
    ++ (if (culture_start_date p >? clock w (reads w))%Z
        then [future_message] else []).
Proof.
  unfold run, validate_input, bind, datetime_now, ret. cbn [fst clock reads].
  rewrite fold_check_measure, fold_check_categorical.
  rewrite numeric_fields_measures. unfold measures.
  cbn [map flat_map fst snd app].
  destruct (culture_start_date p >? clock w (reads w))%Z.
  - now rewrite <- app_assoc.
  - now rewrite !app_nil_r.
Qed.

Lemma in_range_spec (m : Measure) (v : Q) :
  in_range m v = true <-> lower m <= v /\ v <= upper m.
Proof.
  unfold in_range, lower, upper.
  destruct (MEASUREMENT_RANGES m) as [lo hi]. apply between_spec.
Qed.

(** Range messages are told apart from each other and from the categorical
    and date messages. *)
Lemma categorical_part_no_range_message (p : PondParameters) (m : Measure) :
  count_occ string_dec
    (flat_map (fun e : Categorical * list string =>
                 if member (getattr p (fst e)) (snd e) then []
                 else [invalid_message (fst e) (snd e)]) VALID_INPUTS)
    (range_message m) = 0%nat.
Proof.
  unfold VALID_INPUTS. cbn [flat_map fst snd].
  destruct (member (getattr p water_color_field) _);
    destruct (member (getattr p shrimp_behavior_field) _);
    destruct m; reflexivity.
Qed.

Lemma date_part_no_range_message (b : bool) (m : Measure) :
  count_occ string_dec (if b then [future_message] else []) (range_message m)
  = 0%nat.
Proof. destruct b, m; reflexivity. Qed.

Lemma range_part_count (p : PondParameters) (m : Measure) :
  count_occ string_dec
    (flat_map (fun m' => if in_range m' (measure_value p m') then []
                         else [range_message m']) measures)
    (range_message m)
  = if in_range m (measure_value p m) then 0%nat else 1%nat.
Proof.
  unfold measures. cbn [flat_map].
  destruct (in_range secchi_disk_field _) eqn:E1;
    destruct (in_range ph_field _) eqn:E2;
    destruct (in_range area_field _) eqn:E3;
    destruct (in_range depth_field _) eqn:E4;
    destruct (in_range stocking_density_field _) eqn:E5;
    destruct m; rewrite ?E1, ?E2, ?E3, ?E4, ?E5; reflexivity.
Qed.

(** C6: every range is inclusive at both ends; a value one unit below the
    lower or above the upper end is out of range; the returned list holds
    the message of a numeric field exactly once if the field is out of its
    range and not at all otherwise, for all fields at once; and its length
    is the number of failed checks, so that a single violation yields a
    single string. *)
Theorem validate_input_ranges :
  (forall (m : Measure) (v : Q),
     in_range m v = true <-> lower m <= v /\ v <= upper m)
  /\ (forall m : Measure,
        in_range m (lower m) = true /\ in_range m (upper m) = true
        /\ in_range m (lower m - 1) = false
        /\ in_range m (upper m + 1) = false)
  /\ (forall (p : PondParameters) (w : World) (m : Measure),
        count_occ string_dec (run (validate_input p) w) (range_message m)
        = if in_range m (measure_value p m) then 0%nat else 1%nat)
  /\ (forall (p : PondParameters) (w : World),
        List.length (run (validate_input p) w)
        = (categorical_failures p + range_failures p
           + date_failures p (clock w (reads w)))%nat).
Proof.
  split; [exact in_range_spec|].
  split; [intro m; destruct m; repeat split; reflexivity|].
  split.
  - intros p w m. rewrite validate_input_parts, !count_occ_app.
    rewrite categorical_part_no_range_message, date_part_no_range_message,
      range_part_count.
    now rewrite Nat.add_0_r.
  - intros p w. rewrite validate_input_parts, !length_app.
    unfold categorical_failures, range_failures, date_failures,
      VALID_INPUTS, measures.
    cbn [flat_map filter fst snd app].
    destruct (member (getattr p water_color_field) _);
      destruct (member (getattr p shrimp_behavior_field) _);
      destruct (in_range secchi_disk_field _);
      destruct (in_range ph_field _);
      destruct (in_range area_field _);
      destruct (in_range depth_field _);
      destruct (in_range stocking_density_field _);
      destruct (culture_start_date p >? _)%Z; reflexivity.
Qed.

(** Samples: the reference pond is valid; a pH one unit below its range
    gives the one pH message; several violations come back together. *)
Example validate_input_samples :
  run (validate_input reference_pond) (frozen (45 * DAY)) = []
  /\ run (validate_input
            {| area := 1000; depth := 1.5; stocking_density := 80;
               culture_start_date := 0; water_color := "Clear";
               shrimp_behavior := "Active"; secchi_disk := 30; ph := 5.0;
               location := "Ranipet" |}) (frozen (45 * DAY))
     = ["ph must be between 6.0 and 9.0"]
  /\ run (validate_input
            {| area := 99; depth := 2.5; stocking_density := 151;
               culture_start_date := 46 * DAY; water_color := "Blue";
               shrimp_behavior := "Active"; secchi_disk := 61; ph := 9.0;
               location := "Ranipet" |}) (frozen (45 * DAY))
     = ["Invalid water_color. Must be one of: Clear, Green, Brown, Other";
        "secchi_disk must be between 10 and 60";
        "area must be between 100 and 10000";
        "stocking_density must be between 15 and 150";
        "Culture start date cannot be in the future"].
Proof. repeat split. Qed.

End Validator.

(** * Further properties of the analysis core *)

(** ** Rounding keeps the order *)

Section RoundingOrder.

Local Open Scope Q_scope.

Lemma round_half_even_le (x y : Q) :
  x <= y -> (round_half_even x <= round_half_even y)%Z.
Proof.
  intro Hxy. unfold round_half_even.
  pose proof (Qfloor_resp_le x y Hxy) as Hf.
  pose proof (Qfloor_le x) as Hx1. pose proof (Qlt_floor x) as Hx2.
  pose proof (Qfloor_le y) as Hy1. pose proof (Qlt_floor y) as Hy2.
  rewrite inject_Z_plus in Hx2, Hy2. change (inject_Z 1) with 1 in Hx2, Hy2.
  destruct (Z_lt_le_dec (Qfloor x) (Qfloor y)) as [Hlt | Hge].
  - destruct (Qcompare (x - inject_Z (Qfloor x)) (1 # 2));
      destruct (Qcompare (y - inject_Z (Qfloor y)) (1 # 2));
      destruct (Z.even (Qfloor x)); destruct (Z.even (Qfloor y)); lia.
  - assert (E : Qfloor x = Qfloor y) by lia.
    rewrite E in *.
    destruct (Qcompare_spec (x - inject_Z (Qfloor y)) (1 # 2));
      destruct (Qcompare_spec (y - inject_Z (Qfloor y)) (1 # 2));
      destruct (Z.even (Qfloor y)); try lia; exfalso; lra.
Qed.

Lemma round_nd_le (x y : Q) (n : nat) :
  x <= y -> round_nd x n <= round_nd y n.
Proof.
  intro H. unfold round_nd.
  pose proof (scale_pos n) as Hs.
  set (s := inject_Z (10 ^ Z.of_nat n)) in *.
  assert (Hr : (round_half_even (x * s) <= round_half_even (y * s))%Z).
  { apply round_half_even_le. apply Qmult_le_compat_r; lra. }
  rewrite Zle_Qle in Hr.
  apply Qmult_le_r with (z := s); [exact Hs|].
  assert (Hne : ~ s == 0) by lra.
  field_simplify; [|exact Hne|exact Hne]. lra.
Qed.

(** A whole number rounds to itself. *)
Lemma round_half_even_whole (x : Q) (k : Z) :
  x == inject_Z k -> round_half_even x = k.
Proof.
  intro H. destruct (round_half_even_near x) as [H1 H2].
  assert (Hlo : (round_half_even x < k + 1)%Z).
  { rewrite Zlt_Qlt, inject_Z_plus. change (inject_Z 1) with 1. lra. }
  assert (Hhi : (k < round_half_even x + 1)%Z).
  { rewrite Zlt_Qlt, inject_Z_plus. change (inject_Z 1) with 1. lra. }
  lia.
Qed.

(** A number with at most [n] decimals is left alone by [round(x, n)]. *)
Lemma round_nd_exact (x : Q) (n : nat) (k : Z) :
  x * inject_Z (10 ^ Z.of_nat n) == inject_Z k -> round_nd x n == x.
Proof.
  intro H. unfold round_nd. rewrite (round_half_even_whole _ k H).
  pose proof (scale_pos n) as Hs.
  set (s := inject_Z (10 ^ Z.of_nat n)) in *.
  rewrite <- H. field. lra.
Qed.

End RoundingOrder.

(** ** Growth model: bounds, weather and culture age *)

Section GrowthBounds.

Local Open Scope Q_scope.

(** Without a reading the temperature factor is the neutral one, and a
    reading can only lower the adjusted rate. *)
Lemma adjusted_growth_weather (p : PondParameters) (wd : WeatherData) :
  adjusted_growth p (Some wd) <= adjusted_growth p None.
Proof.
  unfold adjusted_growth, base_growth.
  destruct (density_factor_cases p) as [-> | [-> | ->]];
    destruct (depth_factor_cases p) as [-> | [-> | ->]];
    destruct (temp_factor_cases (Some wd)) as [-> | [-> | ->]];
    apply Qle_bool_iff; reflexivity.
Qed.

Lemma days_nonneg (days : Z) : (0 <= days)%Z -> 0 <= inject_Z days.
Proof. intro H. change 0 with (inject_Z 0). now rewrite <- Zle_Qle. Qed.

(** X1: The daily figure lies between 0.0159 and 0.0308 g, the weekly one
    between 0.1111 and 0.2156 g; from day 0 on the estimated size starts at
    the postlarval 0.002 g and grows by 0.0158 to 0.0308 g a day. *)
Theorem growth_envelope (p : PondParameters) (weather : option WeatherData)
    (days : Z) :
  (0 <= days)%Z ->
  let g := _predict_growth p weather days in
  (0.0159 <= daily_growth g /\ daily_growth g <= 0.0308)
  /\ (0.1111 <= weekly_growth g /\ weekly_growth g <= 0.2156)
  /\ 0.002 + 0.0158 * inject_Z days <= estimated_size g
  /\ estimated_size g <= 0.002 + 0.0308 * inject_Z days.
Proof.
  intros Hd g. subst g.
  cbn [_predict_growth daily_growth weekly_growth estimated_size].
  destruct (adjusted_growth_bounds p weather) as [Hlo Hhi].
  set (a := adjusted_growth p weather) in *.
  pose proof (days_nonneg days Hd) as Hn.
  set (n := inject_Z days) in *.
  assert (E1 : round_nd (0.002 + 0.0158 * n) 4 == 0.002 + 0.0158 * n).
  { apply (round_nd_exact _ 4 (20 + 158 * days)).
    rewrite inject_Z_plus, inject_Z_mult. fold n.
    change (inject_Z (10 ^ Z.of_nat 4)) with 10000.
    change (inject_Z 20) with 20. change (inject_Z 158) with 158. ring. }
  assert (E2 : round_nd (0.002 + 0.0308 * n) 4 == 0.002 + 0.0308 * n).
  { apply (round_nd_exact _ 4 (20 + 308 * days)).
    rewrite inject_Z_plus, inject_Z_mult. fold n.
    change (inject_Z (10 ^ Z.of_nat 4)) with 10000.
    change (inject_Z 20) with 20. change (inject_Z 308) with 308. ring. }
  repeat split.
  - change 0.0159 with (round_nd 0.015876 4). now apply round_nd_le.
  - change 0.0308 with (round_nd 0.0308 4). now apply round_nd_le.
  - change 0.1111 with (round_nd (0.015876 * 7) 4). apply round_nd_le. lra.
  - change 0.2156 with (round_nd (0.0308 * 7) 4). apply round_nd_le. lra.
  - rewrite <- E1. apply round_nd_le.
    destruct (Qlt_le_dec n 1) as [Hsmall | Hbig].
    + assert (Hz : (days < 1)%Z).
      { rewrite Zlt_Qlt. exact Hsmall. }
      assert (days = 0%Z) by lia. subst days. subst n.
      change (inject_Z 0) with 0. lra.
    + nra.
  - rewrite <- E2. apply round_nd_le. nra.
Qed.

(** Ten days into the culture of the reference pond. *)
Lemma growth_envelope_witness :
  (0 <= 10)%Z
  /\ 0.002 + 0.0158 * inject_Z 10
     <= estimated_size (_predict_growth reference_pond (Some mild_weather) 10).
Proof.
  split; [lia|].
  apply (growth_envelope reference_pond (Some mild_weather) 10). lia.
Defined.

(** X2: A weather reading never raises the projection over the one made
    without a reading, and a temperature from 25 to 32 degrees gives exactly
    the projection made without a reading. *)
Theorem weather_never_raises_growth (p : PondParameters) (wd : WeatherData)
    (days : Z) :
  (0 <= days)%Z ->
  let with_reading := _predict_growth p (Some wd) days in
  let without := _predict_growth p None days in
  daily_growth with_reading <= daily_growth without
  /\ weekly_growth with_reading <= weekly_growth without
  /\ estimated_size with_reading <= estimated_size without
  /\ (25 <= temperature wd /\ temperature wd <= 32 ->
      with_reading = without).
Proof.
  intros Hd g1 g2. subst g1 g2.
  cbn [_predict_growth daily_growth weekly_growth estimated_size].
  pose proof (adjusted_growth_weather p wd) as Ha.
  pose proof (days_nonneg days Hd) as Hn.
  repeat split.
  - now apply round_nd_le.
  - apply round_nd_le. lra.
  - apply round_nd_le.
    set (a1 := adjusted_growth p (Some wd)) in *.
    set (a2 := adjusted_growth p None) in *.
    set (n := inject_Z days) in *. nra.
  - intros [Hlo Hhi].
    assert (E : temp_factor (Some wd) = temp_factor None).
    { cbn [temp_factor].
      destruct (Qltb (temperature wd) 25) eqn:E1;
        [apply Qltb_spec in E1; lra|].
      destruct (Qltb 32 (temperature wd)) eqn:E2;
        [apply Qltb_spec in E2; lra|]. reflexivity. }
    unfold _predict_growth, adjusted_growth. now rewrite E.
Qed.

Lemma weather_never_raises_growth_witness :
  (0 <= 45)%Z
  /\ estimated_size (_predict_growth reference_pond (Some heat_wave) 45)
     <= estimated_size (_predict_growth reference_pond None 45).
Proof.
  split; [lia|].
  apply (weather_never_raises_growth reference_pond heat_wave 45). lia.
Defined.

(** X3: Before the culture start the projection is negative: the growth model
    does not guard against a negative culture age. *)
Theorem negative_age_negative_size (p : PondParameters)
    (weather : option WeatherData) (days : Z) :
  (days < 0)%Z ->
  estimated_size (_predict_growth p weather days) < 0.
Proof.
  intro Hd. cbn [_predict_growth estimated_size].
  destruct (adjusted_growth_bounds p weather) as [Hlo _].
  set (a := adjusted_growth p weather) in *.
  assert (Hn : inject_Z days <= -1).
  { change (-1) with (inject_Z (-1)). rewrite <- Zle_Qle. lia. }
  set (n := inject_Z days) in *.
  apply Qle_lt_trans with (y := round_nd (-0.013876) 4).
  - apply round_nd_le. nra.
  - reflexivity.
Qed.

Lemma negative_age_negative_size_witness :
  (-1 < 0)%Z
  /\ estimated_size (_predict_growth reference_pond None (-1)) < 0.
Proof.
  split; [lia|].
  apply (negative_age_negative_size reference_pond None (-1)). lia.
Defined.

End GrowthBounds.

(** ** Validator: what is accepted, what is reported, in which order *)

Section ValidatorReports.

Lemma member_spec (value : string) (valid_values : list string) :
  member value valid_values = true <-> In value valid_values.
Proof.
  unfold member. rewrite existsb_exists. split.
  - intros [x [Hin Heq]]. apply String.eqb_eq in Heq. now subst x.
  - intro Hin. exists value. split; [exact Hin | apply String.eqb_refl].
Qed.

Lemma range_part_no_other_message (p : PondParameters) (x : string) :
  (forall m : Measure, x <> range_message m) ->
  count_occ string_dec
    (flat_map (fun m => if in_range m (measure_value p m) then []
                        else [range_message m]) measures) x = 0%nat.
Proof.
  intro Hx. apply count_occ_not_In. intro Hin.
  apply in_flat_map in Hin. destruct Hin as [m [_ Hm]].
  destruct (in_range m (measure_value p m)); [contradiction|].
  destruct Hm as [Hm | []]. symmetry in Hm. exact (Hx m Hm).
Qed.

Lemma invalid_message_not_range (e : Categorical * list string) (m : Measure) :
  In e VALID_INPUTS -> invalid_message (fst e) (snd e) <> range_message m.
Proof.
  intros [<- | [<- | []]]; destruct m; discriminate.
Qed.

Lemma future_message_not_range (m : Measure) :
  future_message <> range_message m.
Proof. destruct m; discriminate. Qed.

(** X4: The message of a categorical field is returned, once, exactly when the
    value of the field is not literally one of the allowed words; the date
    message exactly when the start is later than the clock reading. *)
Theorem validate_input_reports (p : PondParameters) (w : World) :
  let errors := run (validate_input p) w in
  (forall e : Categorical * list string,
     In e VALID_INPUTS ->
     count_occ string_dec errors (invalid_message (fst e) (snd e))
     = if member (getattr p (fst e)) (snd e) then 0%nat else 1%nat)
  /\ (forall e : Categorical * list string,
        In e VALID_INPUTS ->
        (In (invalid_message (fst e) (snd e)) errors
         <-> ~ In (getattr p (fst e)) (snd e)))
  /\ count_occ string_dec errors future_message
     = (if culture_start_date p >? clock w (reads w) then 1%nat else 0%nat)
  /\ (In future_message errors
      <-> culture_start_date p > clock w (reads w)).
Proof.
  intro errors. subst errors.
  assert (Hcat : forall e : Categorical * list string,
     In e VALID_INPUTS ->
     count_occ string_dec (run (validate_input p) w)
       (invalid_message (fst e) (snd e))
     = if member (getattr p (fst e)) (snd e) then 0%nat else 1%nat).
  { intros e He. rewrite validate_input_parts, !count_occ_app.
    rewrite (range_part_no_other_message p)
      by (intro m; now apply invalid_message_not_range).
    destruct He as [<- | [<- | []]]; unfold VALID_INPUTS;
      cbn [flat_map fst snd];
      destruct (member (getattr p water_color_field) _);
      destruct (member (getattr p shrimp_behavior_field) _);
      destruct (culture_start_date p >? clock w (reads w)); reflexivity. }
  assert (Hdate : count_occ string_dec (run (validate_input p) w)
                    future_message
     = (if culture_start_date p >? clock w (reads w) then 1%nat else 0%nat)).
  { rewrite validate_input_parts, !count_occ_app.
    rewrite (range_part_no_other_message p)
      by (exact future_message_not_range).
    unfold VALID_INPUTS. cbn [flat_map fst snd].
    destruct (member (getattr p water_color_field) _);
      destruct (member (getattr p shrimp_behavior_field) _);
      destruct (culture_start_date p >? clock w (reads w)); reflexivity. }
  split; [exact Hcat|]. split; [|split; [exact Hdate|]].
  - intros e He. rewrite (count_occ_In string_dec), (Hcat e He).
    rewrite <- member_spec.
    destruct (member (getattr p (fst e)) (snd e)); split; intro H;
      try lia; try congruence.
  - rewrite (count_occ_In string_dec), Hdate.
    destruct (culture_start_date p >? clock w (reads w)) eqn:E.
    + apply Zgtb_spec in E. split; intro; [exact E | lia].
    + split; intro H; [lia|]. apply Zgtb_spec in H. congruence.
Qed.

End ValidatorReports.

Section ValidatorAccepts.

Local Open Scope Q_scope.

Lemma validate_input_nil_bool (p : PondParameters) (w : World) :
  run (validate_input p) w = []
  <-> forallb (fun e : Categorical * list string =>
                 member (getattr p (fst e)) (snd e)) VALID_INPUTS
      && forallb (fun m => in_range m (measure_value p m)) measures
      && negb (culture_start_date p >? clock w (reads w))%Z = true.
Proof.
  rewrite validate_input_parts. unfold VALID_INPUTS, measures.
  cbn [flat_map forallb fst snd].
  destruct (member (getattr p water_color_field) _);
    destruct (member (getattr p shrimp_behavior_field) _);
    destruct (in_range secchi_disk_field _);
    destruct (in_range ph_field _);
    destruct (in_range area_field _);
    destruct (in_range depth_field _);
    destruct (in_range stocking_density_field _);
    destruct (culture_start_date p >? clock w (reads w))%Z;
    cbn [app andb negb]; split; intro H; try discriminate H; reflexivity.
Qed.

(** X5: The validator returns no message exactly when both categorical fields
    hold one of their allowed words, every numeric field lies within its
    closed range, and the culture start is not later than the clock
    reading. *)
Theorem validate_input_accepts_iff (p : PondParameters) (w : World) :
  run (validate_input p) w = []
  <-> (forall e : Categorical * list string,
         In e VALID_INPUTS -> In (getattr p (fst e)) (snd e))
      /\ (forall m : Measure,
            lower m <= measure_value p m /\ measure_value p m <= upper m)
      /\ (culture_start_date p <= clock w (reads w))%Z.
Proof.
  rewrite validate_input_nil_bool, !andb_true_iff, !forallb_forall.
  rewrite negb_true_iff.
  split.
  - intros [[Hc Hm] Hd]. split; [|split].
    + intros e He. apply member_spec. now apply Hc.
    + intro m. apply in_range_spec. apply Hm. destruct m; cbn; tauto.
    + destruct (Z.gtb_spec (culture_start_date p) (clock w (reads w)));
        [discriminate | lia].
  - intros [Hc [Hm Hd]]. split; [split|].
    + intros e He. apply member_spec. now apply Hc.
    + intros m _. apply in_range_spec. apply Hm.
    + destruct (Z.gtb_spec (culture_start_date p) (clock w (reads w)));
        [lia | reflexivity].
Qed.

End ValidatorAccepts.

Section ValidatorOrder.

Context {A : Type}.

Lemma subsequence_refl (l : list A) : subsequence l l.
Proof. induction l; constructor; assumption. Qed.

Lemma subsequence_app (a b c d : list A) :
  subsequence a b -> subsequence c d -> subsequence (a ++ c) (b ++ d).
Proof.
  intros Hab Hcd. induction Hab; cbn; [assumption | |]; constructor;
    assumption.
Qed.

Lemma subsequence_length (l1 l2 : list A) :
  subsequence l1 l2 -> (List.length l1 <= List.length l2)%nat.
Proof. induction 1; cbn; lia. Qed.

Lemma subsequence_In (l1 l2 : list A) (x : A) :
  subsequence l1 l2 -> In x l1 -> In x l2.
Proof.
  induction 1; cbn; intro Hin; [assumption | right; auto |].
  destruct Hin; [now left | right; auto].
Qed.

Lemma subsequence_NoDup (l1 l2 : list A) :
  subsequence l1 l2 -> NoDup l2 -> NoDup l1.
Proof.
  induction 1; intro Hnd; [assumption | |].
  - inversion Hnd; subst. auto.
  - inversion Hnd as [|? ? Hx Hl2]; subst. constructor; [|auto].
    intro Hin. apply Hx. eapply subsequence_In; eassumption.
Qed.

(** A loop that appends one message per failing item returns a selection
    of the messages of all items, in the order of the items. *)
Lemma subsequence_flat_map {B : Type} (ok : B -> bool) (f : B -> A)
    (l : list B) :
  subsequence (flat_map (fun x => if ok x then [] else [f x]) l) (map f l).
Proof.
  induction l as [|x l IH]; cbn; [constructor|].
  destruct (ok x); cbn; constructor; assumption.
Qed.

End ValidatorOrder.

Section ValidatorOrderResult.

Lemma all_messages_NoDup : NoDup all_messages.
Proof.
  unfold all_messages, VALID_INPUTS, measures. cbn [map app fst snd].
  repeat constructor; cbn [In]; intro H;
    repeat match goal with
           | H : _ \/ _ |- _ => destruct H as [H | H]
           end; try discriminate H; exact H.
Qed.

(** X6: The returned messages are a selection of the eight possible ones, in
    the fixed order of the checks: water colour, behaviour, Secchi depth,
    pH, area, depth, density, date.  No message comes twice and there are
    at most eight. *)
Theorem validate_input_order (p : PondParameters) (w : World) :
  let errors := run (validate_input p) w in
  subsequence errors all_messages
  /\ NoDup errors
  /\ (List.length errors <= 8)%nat.
Proof.
  intro errors. subst errors.
  assert (Hsub : subsequence (run (validate_input p) w) all_messages).
  { rewrite validate_input_parts. unfold all_messages.
    apply subsequence_app;
      [apply (subsequence_flat_map
                (fun e : Categorical * list string =>
                   member (getattr p (fst e)) (snd e))
                (fun e => invalid_message (fst e) (snd e)))|].
    apply subsequence_app;
      [apply (subsequence_flat_map
                (fun m => in_range m (measure_value p m)) range_message)|].
    destruct (culture_start_date p >? clock w (reads w));
      [apply subsequence_refl | apply subsequence_skip, subsequence_nil]. }
  split; [exact Hsub|]. split.
  - exact (subsequence_NoDup _ _ Hsub all_messages_NoDup).
  - exact (subsequence_length _ _ Hsub).
Qed.

End ValidatorOrderResult.

(** ** Culture age and the survival estimator *)

Section CultureAge.

Lemma timedelta_days_bounds (a b : Z) :
  b + timedelta_days a b * MICROSECONDS_PER_DAY <= a
  /\ a < b + (timedelta_days a b + 1) * MICROSECONDS_PER_DAY.
Proof.
  unfold timedelta_days, MICROSECONDS_PER_DAY.
  change (86400 * 1000000) with 86400000000.
  pose proof (Z.div_mod (a - b) 86400000000 ltac:(lia)) as Hdm.
  pose proof (Z.mod_pos_bound (a - b) 86400000000 ltac:(lia)) as Hm.
  lia.
Qed.

(** X7: The reported culture age is the number of whole days from the culture
    start to the first clock reading, rounded down; it is negative exactly
    when the start lies after that reading. *)
Theorem days_of_culture_whole_days (p : PondParameters)
    (weather : option WeatherData) (w : World) :
  let d := days_of_culture (run (analyze_pond p weather) w) in
  let now := clock w (reads w) in
  culture_start_date p + d * DAY <= now
  /\ now < culture_start_date p + (d + 1) * DAY
  /\ (0 <= d <-> culture_start_date p <= now)
  /\ (d < 0 <-> now < culture_start_date p).
Proof.
  intros d now. subst d now.
  destruct (analyze_pond_readings p weather w) as [Hd _]. cbv zeta in Hd.
  rewrite Hd. unfold culture_days, DAY. rewrite Nat.add_0_r.
  pose proof (timedelta_days_bounds (clock w (reads w))
                (culture_start_date p)) as [H1 H2].
  set (d := timedelta_days _ _) in *.
  unfold MICROSECONDS_PER_DAY in *.
  change (86400 * 1000000) with 86400000000 in *.
  repeat split; lia.
Qed.

(** X8: When the three clock readings of one analysis fall on the same day of
    culture, the survival rate and the confidence score of the report are
    those the two estimators give at the first reading, the one behind the
    reported culture age. *)
Theorem same_day_report_consistent (p : PondParameters)
    (weather : option WeatherData) (w : World) :
  culture_days p w 1 = culture_days p w 0 ->
  culture_days p w 2 = culture_days p w 0 ->
  let r := run (analyze_pond p weather) w in
  survival_rate (biomass_estimation r) = run (_estimate_survival_rate p) w
  /\ confidence_score r = run (_calculate_confidence p weather) w.
Proof.
  intros H1 H2. cbv zeta. unfold culture_days in H1, H2.
  replace (reads w + 0)%nat with (reads w) in * by lia.
  replace (reads w + 1)%nat with (S (reads w)) in * by lia.
  replace (reads w + 2)%nat with (S (S (reads w))) in * by lia.
  unfold run, analyze_pond, _estimate_biomass, _estimate_survival_rate,
    _calculate_confidence, bind, datetime_now, ret.
  cbn [fst snd clock reads survival_rate biomass_estimation confidence_score].
  rewrite H1, H2. split; reflexivity.
Qed.

(** Three readings within the 46th day of the reference pond. *)
Lemma same_day_report_consistent_witness :
  let w := ticking [45 * DAY; 45 * DAY + 5; 45 * DAY + 9] (45 * DAY + 9) in
  culture_days reference_pond w 1 = culture_days reference_pond w 0
  /\ culture_days reference_pond w 2 = culture_days reference_pond w 0
  /\ confidence_score (run (analyze_pond reference_pond None) w)
     = run (_calculate_confidence reference_pond None) w.
Proof.
  intro w. split; [reflexivity|]. split; [reflexivity|].
  apply (same_day_report_consistent reference_pond None w);
    reflexivity.
Defined.

(** X9: A denser stocking or a longer culture never raises the survival
    rate. *)
Theorem survival_rate_antitone (p1 p2 : PondParameters) (w1 w2 : World) :
  stocking_density p1 <= stocking_density p2 ->
  culture_days p1 w1 0 <= culture_days p2 w2 0 ->
  (run (_estimate_survival_rate p2) w2
   <= run (_estimate_survival_rate p1) w1)%Q.
Proof.
  unfold culture_days. rewrite !Nat.add_0_r. intros Hs Hd.
  rewrite (estimate_survival_rate_table p1 w1).
  rewrite (estimate_survival_rate_table p2 w2). cbv zeta.
  destruct (Z.gtb_spec (stocking_density p1) 100);
    destruct (Z.gtb_spec (stocking_density p2) 100);
    destruct (Z.gtb_spec
                (timedelta_days (clock w1 (reads w1)) (culture_start_date p1))
                60);
    destruct (Z.gtb_spec
                (timedelta_days (clock w2 (reads w2)) (culture_start_date p2))
                60);
    try lia; apply Qle_bool_iff; reflexivity.
Qed.

Lemma survival_rate_antitone_witness :
  stocking_density reference_pond <= stocking_density dense_pond
  /\ culture_days reference_pond (frozen (45 * DAY)) 0
     <= culture_days dense_pond (frozen (61 * DAY)) 0
  /\ (run (_estimate_survival_rate dense_pond) (frozen (61 * DAY))
      <= run (_estimate_survival_rate reference_pond) (frozen (45 * DAY)))%Q.
Proof.
  assert (H1 : stocking_density reference_pond <= stocking_density dense_pond)
    by (cbn; lia).
  assert (H2 : culture_days reference_pond (frozen (45 * DAY)) 0
               <= culture_days dense_pond (frozen (61 * DAY)) 0)
    by (vm_compute; discriminate).
  split; [exact H1|]. split; [exact H2|].
  exact (survival_rate_antitone reference_pond dense_pond
           (frozen (45 * DAY)) (frozen (61 * DAY)) H1 H2).
Defined.

End CultureAge.

(** ** Ponds the validator accepts *)

Section AcceptedPonds.

Local Open Scope Q_scope.

Lemma accepted_ranges (p : PondParameters) (w : World) :
  run (validate_input p) w = [] ->
  (100 <= area p /\ area p <= 10000)
  /\ (0.8 <= depth p /\ depth p <= 2.5)
  /\ (15 <= inject_Z (stocking_density p)
      /\ inject_Z (stocking_density p) <= 150)
  /\ (culture_start_date p <= clock w (reads w))%Z.
Proof.
  intro H. apply validate_input_nil_bool in H.
  rewrite !andb_true_iff, negb_true_iff in H.
  destruct H as [[_ Hm] Hd]. unfold measures in Hm. cbn [forallb] in Hm.
  rewrite !andb_true_iff in Hm.
  destruct Hm as (_ & _ & Ha & Hdp & Hs & _).
  apply in_range_spec in Ha, Hdp, Hs.
  cbn in Ha, Hdp, Hs.
  split; [lra|]. split; [lra|]. split; [lra|].
  destruct (Z.gtb_spec (culture_start_date p) (clock w (reads w)));
    [discriminate | lia].
Qed.

Lemma survival_rate_range (p : PondParameters) (w : World) :
  0.79 <= run (_estimate_survival_rate p) w
  /\ run (_estimate_survival_rate p) w <= 0.85.
Proof.
  rewrite (estimate_survival_rate_table p w). cbv zeta.
  destruct (stocking_density p >? 100)%Z;
    destruct (timedelta_days (clock w (reads w)) (culture_start_date p)
              >? 60)%Z;
    split; apply Qle_bool_iff; reflexivity.
Qed.

(** The unrounded population of an accepted pond. *)
Lemma accepted_product_bounds (p : PondParameters) (w0 w : World) :
  run (validate_input p) w0 = [] ->
  let x := area p * inject_Z (stocking_density p)
           * run (_estimate_survival_rate p) w in
  1185 <= x /\ x <= 1275000
  /\ x + (1 # 2) <= area p * inject_Z (stocking_density p).
Proof.
  intros Hacc x. subst x.
  destruct (accepted_ranges p w0 Hacc) as ((Ha1 & Ha2) & _ & (Hs1 & Hs2) & _).
  destruct (survival_rate_range p w) as [Hr1 Hr2].
  set (a := area p) in *. set (d := inject_Z (stocking_density p)) in *.
  set (s := run (_estimate_survival_rate p) w) in *.
  assert (Had1 : 1500 <= a * d) by nra.
  assert (Had2 : a * d <= 1500000) by nra.
  set (ad := a * d) in *.
  repeat split; nra.
Qed.

(** X10: For a pond the validator accepts, the estimated population is positive,
    between 1185 and 1275000, and never above the number stocked
    (area x stocking density). *)
Theorem accepted_population_bounds (p : PondParameters)
    (g : GrowthPrediction) (w0 w : World) :
  run (validate_input p) w0 = [] ->
  let b := run (_estimate_biomass p g) w in
  (1185 <= estimated_population b <= 1275000)%Z
  /\ inject_Z (estimated_population b)
     <= area p * inject_Z (stocking_density p).
Proof.
  intros Hacc b. subst b.
  destruct (estimate_biomass_fields p g w) as (_ & Ep & _). cbv zeta in Ep.
  rewrite Ep.
  destruct (accepted_product_bounds p w0 w Hacc) as (Hlo & Hhi & Hst).
  set (x := area p * inject_Z (stocking_density p)
            * run (_estimate_survival_rate p) w) in *.
  split; [split|].
  - change 1185%Z with (round_half_even 1185).
    now apply round_half_even_le.
  - change 1275000%Z with (round_half_even 1275000).
    now apply round_half_even_le.
  - destruct (round_half_even_near x) as [Hn _]. lra.
Qed.

Lemma accepted_population_bounds_witness :
  run (validate_input reference_pond) (frozen (45 * DAY)) = []
  /\ inject_Z (estimated_population
                 (run (_estimate_biomass reference_pond
                         (_predict_growth reference_pond None 45))
                      (frozen (45 * DAY))))
     <= area reference_pond * inject_Z (stocking_density reference_pond).
Proof.
  split; [reflexivity|].
  apply (accepted_population_bounds reference_pond
           (_predict_growth reference_pond None 45)
           (frozen (45 * DAY)) (frozen (45 * DAY))).
  reflexivity.
Defined.

(** X11: For a pond the validator accepts, analysed at or after the clock
    reading of the validation, the culture age is not negative, the
    estimated size is at least the postlarval 0.002 g, the biomass is
    positive and the daily feed is not negative. *)
Theorem accepted_report_positive (p : PondParameters)
    (weather : option WeatherData) (w0 w : World) :
  run (validate_input p) w0 = [] ->
  (clock w0 (reads w0) <= clock w (reads w))%Z ->
  let r := run (analyze_pond p weather) w in
  (0 <= days_of_culture r)%Z
  /\ 0.002 <= estimated_size (growth_prediction r)
  /\ 0 < estimated_biomass (biomass_estimation r)
  /\ 0 <= daily_feed_kg (feeding_recommendation r).
Proof.
  intros Hacc Hclk r.
  destruct (accepted_ranges p w0 Hacc) as (_ & _ & _ & Hstart).
  assert (Hd : (0 <= timedelta_days (clock w (reads w))
                       (culture_start_date p))%Z).
  { unfold timedelta_days. apply Z.div_pos; [lia | reflexivity]. }
  assert (Hsize : 0.002 <= estimated_size
                    (_predict_growth p weather
                       (timedelta_days (clock w (reads w))
                          (culture_start_date p)))).
  { cbn [_predict_growth estimated_size].
    apply Qle_trans with (y := round_nd 0.002 4);
      [apply Qle_bool_iff; reflexivity|].
    apply round_nd_le.
    destruct (adjusted_growth_bounds p weather) as [Ha _].
    pose proof (days_nonneg _ Hd) as Hn.
    set (a := adjusted_growth p weather) in *.
    set (n := inject_Z _) in *. nra. }
  assert (Hbio : 0.00237 <= estimated_biomass (biomass_estimation r)).
  { subst r. rewrite analyze_pond_biomass.
    set (g := _predict_growth p weather _) in *.
    set (w' := mkWorld (clock w) (S (reads w))).
    destruct (estimate_biomass_fields p g w') as (_ & _ & Eb).
    cbv zeta in Eb. rewrite Eb.
    destruct (accepted_product_bounds p w0 w' Hacc) as (Hlo & _ & _).
    set (x := area p * inject_Z (stocking_density p)
              * run (_estimate_survival_rate p) w') in *.
    set (s := estimated_size g) in *.
    assert (Hr : round_nd 2.37 2 <= round_nd (x * s) 2)
      by (apply round_nd_le; nra).
    assert (Hc : 2.37 <= round_nd 2.37 2)
      by (apply Qle_bool_iff; reflexivity).
    apply Qmult_le_r with (z := 1000); [reflexivity|].
    field_simplify. lra. }
  split; [exact Hd|]. split; [exact Hsize|]. split; [lra|].
  change (daily_feed_kg (feeding_recommendation r))
    with (round_nd (estimated_biomass (biomass_estimation r) * 0.03) 2).
  apply Qle_trans with (y := round_nd 0 2);
    [apply Qle_bool_iff; reflexivity|].
  apply round_nd_le. lra.
Qed.

Lemma accepted_report_positive_witness :
  run (validate_input reference_pond) (frozen (45 * DAY)) = []
  /\ (clock (frozen (45 * DAY)) 0 <= clock (frozen (46 * DAY)) 0)%Z
  /\ 0 < estimated_biomass
           (biomass_estimation
              (run (analyze_pond reference_pond None) (frozen (46 * DAY)))).
Proof.
  assert (Hclk : (clock (frozen (45 * DAY)) (reads (frozen (45 * DAY)))
                  <= clock (frozen (46 * DAY)) (reads (frozen (46 * DAY))))%Z)
    by (vm_compute; discriminate).
  split; [reflexivity|]. split; [exact Hclk|].
  apply (accepted_report_positive reference_pond None
           (frozen (45 * DAY)) (frozen (46 * DAY)) eq_refl Hclk).
Defined.

End AcceptedPonds.

(** ** Carrying capacity and feed *)

Section CapacityAndFeed.

Local Open Scope Q_scope.



(** X13: More biomass never means less feed, and no biomass below zero means no
    feed below zero; the schedule does not depend on the biomass. *)
Theorem daily_feed_monotone (b1 b2 : Q) :
  b1 <= b2 ->
  daily_feed_kg (_calculate_feed b1) <= daily_feed_kg (_calculate_feed b2)
  /\ (0 <= b1 -> 0 <= daily_feed_kg (_calculate_feed b1))
  /\ feeding_schedule (_calculate_feed b1)
     = feeding_schedule (_calculate_feed b2).
Proof.
  intro H. cbn [_calculate_feed daily_feed_kg feeding_schedule].
  split; [apply round_nd_le; lra|]. split; [|reflexivity].
  intro H0. apply Qle_trans with (y := round_nd 0 2);
    [apply Qle_bool_iff; reflexivity | apply round_nd_le; lra].
Qed.

Lemma daily_feed_monotone_witness :
  1.5 <= 85.816
  /\ daily_feed_kg (_calculate_feed 1.5)
     <= daily_feed_kg (_calculate_feed 85.816).
Proof.
  assert (H : 1.5 <= 85.816) by (apply Qle_bool_iff; reflexivity).
  split; [exact H|].
  exact (proj1 (daily_feed_monotone 1.5 85.816 H)).
Defined.

End CapacityAndFeed.

(** ** Recommendations *)

Section Recommendations.

Local Open Scope Q_scope.

Lemma fold_left_append {A B : Type} (f : A -> B) (l : list A) (acc : list B) :
  fold_left (fun recs i => recs ++ [f i]) l acc = acc ++ map f l.
Proof.
  revert acc. induction l as [|x l IH]; intro acc; cbn.
  - now rewrite app_nil_r.
  - rewrite IH, <- app_assoc. reflexivity.
Qed.

Lemma hot_spec (weather : option WeatherData) :
  hot weather
  <-> match weather with
      | Some wd => Qltb 32 (temperature wd) = true
      | None => False
      end.
Proof.
  unfold hot. destruct weather as [wd|].
  - rewrite Qltb_spec. split.
    + intros [wd' [[= <-] H]]. exact H.
    + intro H. exists wd. now split.
  - split; [intros [wd [[=] _]] | contradiction].
Qed.

Lemma recommendations_parts (p : PondParameters)
    (weather : option WeatherData) (q : WaterQuality) (b : BiomassEstimation)
    (c : CarryingCapacity) :
  let over := max_biomass c * 0.8 < estimated_biomass b in
  exists front back : list Recommendation,
    _generate_recommendations p weather q b c
    = front ++ map water_recommendation (issues q) ++ back
    /\ (over /\ front = [capacity_recommendation] \/ ~ over /\ front = [])
    /\ (hot weather /\ back = [heat_recommendation]
        \/ ~ hot weather /\ back = []).
Proof.
  intro over. subst over. unfold _generate_recommendations.
  rewrite (fold_left_append water_recommendation).
  exists (if Qltb (max_biomass c * 0.8) (estimated_biomass b)
          then [capacity_recommendation] else []),
    (match weather with
     | Some wd => if Qltb 32 (temperature wd) then [heat_recommendation]
                  else []
     | None => []
     end).
  split; [|split].
  - destruct (Qltb (max_biomass c * 0.8) (estimated_biomass b));
      destruct weather as [wd|]; [destruct (Qltb 32 (temperature wd))| |
        destruct (Qltb 32 (temperature wd))|];
      cbn [app]; rewrite ?app_nil_r, <- ?app_assoc; reflexivity.
  - destruct (Qltb (max_biomass c * 0.8) (estimated_biomass b)) eqn:E.
    + left. apply Qltb_spec in E. now split.
    + right. split; [|reflexivity]. intro H. apply Qltb_spec in H.
      congruence.
  - rewrite hot_spec. destruct weather as [wd|].
    + destruct (Qltb 32 (temperature wd)); [left | right]; split;
        try reflexivity; congruence.
    + right. split; [tauto | reflexivity].
Qed.

(** X14: The list is: the capacity warning, or nothing; then one
    water-quality recommendation per issue, in the order of the issues; then
    the heat warning if a reading above 32 degrees is present.  The capacity
    warning is there when the biomass is above 0.8 times the maximum biomass
    and not there when it is below; exact equality is left open.  Nothing
    else is ever recommended: every entry has priority High, except the heat
    warning, which has priority Medium and comes last. *)
Theorem recommendations_shape (p : PondParameters)
    (weather : option WeatherData) (q : WaterQuality) (b : BiomassEstimation)
    (c : CarryingCapacity) :
  let recs := _generate_recommendations p weather q b c in
  (exists front back : list Recommendation,
     recs = front ++ map water_recommendation (issues q) ++ back
     /\ (front = [capacity_recommendation] \/ front = [])
     /\ (max_biomass c * 0.8 < estimated_biomass b ->
         front = [capacity_recommendation])
     /\ (estimated_biomass b < max_biomass c * 0.8 -> front = [])
     /\ (hot weather /\ back = [heat_recommendation]
         \/ ~ hot weather /\ back = []))
  /\ Forall (fun r => priority r = "High" \/ r = heat_recommendation) recs
  /\ (List.length recs <= List.length (issues q) + 2)%nat.
Proof.
  intros recs. subst recs.
  destruct (recommendations_parts p weather q b c)
    as (front & back & E & Hf & Hb). cbv zeta in Hf.
  split.
  { exists front, back. split; [exact E|].
    split; [destruct Hf as [[_ ->] | [_ ->]]; [now left | now right]|].
    split; [|split; [|exact Hb]].
    - intro Hover. destruct Hf as [[_ ->] | [Hn _]];
        [reflexivity | contradiction].
    - intro Hunder. destruct Hf as [[Hover _] | [_ ->]];
        [exfalso; lra | reflexivity]. }
  rewrite E. split.
  - rewrite !Forall_app. split; [|split].
    + destruct Hf as [[_ ->] | [_ ->]]; repeat constructor.
    + apply Forall_map, Forall_forall. intros i _. now left.
    + destruct Hb as [[_ ->] | [_ ->]];
        [apply Forall_cons; [now right | apply Forall_nil] | apply Forall_nil].
  - rewrite !length_app, length_map.
    destruct Hf as [[_ ->] | [_ ->]]; destruct Hb as [[_ ->] | [_ ->]];
      cbn [List.length]; lia.
Qed.

Lemma water_quality_issues_nil (p : PondParameters) :
  issues (_assess_water_quality p) = []
  <-> (6.5 <= ph p /\ ph p <= 8.5) /\ 20 <= secchi_disk p.
Proof.
  unfold _assess_water_quality.
  destruct (between 6.5 (ph p) 8.5) eqn:Eph;
    [apply between_spec in Eph | apply between_false in Eph];
    (destruct (Qltb (secchi_disk p) 20) eqn:Esd;
     [apply Qltb_spec in Esd | apply Qltb_false in Esd]);
    cbn [negb issues app]; split; intro H; try discriminate H;
    try reflexivity; try (split; assumption); exfalso; lra.
Qed.

(** X15: A report carries no recommendation when its biomass is below 0.8
    times its maximum biomass, the pH lies in [6.5, 8.5], the Secchi depth
    is at least 20 and no reading above 32 degrees is present.  Conversely
    a report without recommendation has a biomass of at most 0.8 times its
    maximum biomass, such a pH and Secchi depth and no such reading.  A
    biomass of exactly 0.8 times the maximum is left open.  No report
    carries more than four recommendations. *)
Theorem report_without_recommendation (p : PondParameters)
    (weather : option WeatherData) (w : World) :
  let r := run (analyze_pond p weather) w in
  (estimated_biomass (biomass_estimation r)
   < max_biomass (carrying_capacity r) * 0.8
   /\ (6.5 <= ph p /\ ph p <= 8.5) /\ 20 <= secchi_disk p
   /\ ~ hot weather ->
   recommendations r = [])
  /\ (recommendations r = [] ->
      estimated_biomass (biomass_estimation r)
      <= max_biomass (carrying_capacity r) * 0.8
      /\ (6.5 <= ph p /\ ph p <= 8.5) /\ 20 <= secchi_disk p
      /\ ~ hot weather)
  /\ (List.length (recommendations r) <= 4)%nat.
Proof.
  intro r.
  assert (Er : recommendations r
               = _generate_recommendations p weather (_assess_water_quality p)
                   (biomass_estimation r) (_calculate_carrying_capacity p))
    by reflexivity.
  assert (Ec : carrying_capacity r = _calculate_carrying_capacity p)
    by reflexivity.
  rewrite Er, Ec. clear Er Ec.
  set (b := biomass_estimation r). set (c := _calculate_carrying_capacity p).
  destruct (recommendations_parts p weather (_assess_water_quality p) b c)
    as (front & back & E & Hf & Hb).
  rewrite E. split; [|split].
  - intros (Ho & Hph & Hsd & Hh).
    assert (Hi : issues (_assess_water_quality p) = [])
      by (apply water_quality_issues_nil; split; assumption).
    rewrite Hi.
    destruct Hf as [[Hf _] | [_ ->]]; [exfalso; lra|].
    destruct Hb as [[Hb _] | [_ ->]]; [contradiction|]. reflexivity.
  - intro H. apply app_eq_nil in H. destruct H as [H1 H2].
    apply app_eq_nil in H2. destruct H2 as [H2 H3].
    apply map_eq_nil in H2. apply water_quality_issues_nil in H2.
    destruct H2 as [Hph Hsd].
    destruct Hf as [[_ Hf] | [Hf _]]; [congruence|].
    destruct Hb as [[_ Hb] | [Hb _]]; [congruence|].
    split; [apply Qnot_lt_le; exact Hf|]. repeat split; tauto.
  - rewrite !length_app, length_map.
    assert (Hi : (List.length (issues (_assess_water_quality p)) <= 2)%nat).
    { unfold _assess_water_quality.
      destruct (negb (between 6.5 (ph p) 8.5));
        destruct (Qltb (secchi_disk p) 20); cbn; lia. }
    destruct Hf as [[_ ->] | [_ ->]]; destruct Hb as [[_ ->] | [_ ->]];
      cbn [List.length]; lia.
Qed.

(** The reference pond, 45 days into the culture, under mild weather. *)
Lemma report_without_recommendation_witness :
  let r := run (analyze_pond reference_pond (Some mild_weather))
             (frozen (45 * DAY)) in
  (estimated_biomass (biomass_estimation r)
   < max_biomass (carrying_capacity r) * 0.8
   /\ (6.5 <= ph reference_pond /\ ph reference_pond <= 8.5)
   /\ 20 <= secchi_disk reference_pond
   /\ ~ hot (Some mild_weather))
  /\ recommendations r = [].
Proof.
  intro r.
  assert (H : estimated_biomass (biomass_estimation r)
              < max_biomass (carrying_capacity r) * 0.8
              /\ (6.5 <= ph reference_pond /\ ph reference_pond <= 8.5)
              /\ 20 <= secchi_disk reference_pond
              /\ ~ hot (Some mild_weather)).
  { split; [reflexivity|].
    split; [split; apply Qle_bool_iff; reflexivity|].
    split; [apply Qle_bool_iff; reflexivity|].
    intros [wd [[= <-] Hhot]]. vm_compute in Hhot. discriminate Hhot. }
  split; [exact H|].
  exact (proj1 (report_without_recommendation reference_pond
                  (Some mild_weather) (frozen (45 * DAY))) H).
Defined.

End Recommendations.

(** ** Confidence score: range, weather and full marks *)

Section ConfidenceRange.

Local Open Scope Q_scope.

(** X16: The score never drops below 45, so the clamp at 0 never acts; a reading
    is worth exactly 20 points; and the score is 100 exactly when a reading
    is present, 6.5 <= pH <= 8.8, 15 <= Secchi depth <= 55, the density is at
    most 120 and at most 100 days separate the culture start from the clock
    reading. *)
Theorem confidence_score_floor (p : PondParameters) (w : World) :
  (forall weather : option WeatherData,
     (45 <= run (_calculate_confidence p weather) w <= 100)%Z)
  /\ (forall wd : WeatherData,
        run (_calculate_confidence p (Some wd)) w
        = (run (_calculate_confidence p None) w + 20)%Z)
  /\ (forall weather : option WeatherData,
        run (_calculate_confidence p weather) w = 100%Z
        <-> weather <> None
            /\ (6.5 <= ph p /\ ph p <= 8.8)
            /\ (15 <= secchi_disk p /\ secchi_disk p <= 55)
            /\ (stocking_density p <= 120)%Z
            /\ (culture_days p w 0 <= 100)%Z).
Proof.
  unfold culture_days. rewrite Nat.add_0_r.
  unfold run, _calculate_confidence, bind, datetime_now, ret.
  cbn [fst clock reads].
  split; [|split].
  - intro weather.
    destruct weather;
      destruct (Qltb (ph p) 6.5 || Qltb 8.8 (ph p));
      destruct (Qltb (secchi_disk p) 15 || Qltb 55 (secchi_disk p));
      destruct (stocking_density p >? 120)%Z;
      destruct (timedelta_days (clock w (reads w)) (culture_start_date p)
                >? 100)%Z; cbn; lia.
  - intro wd.
    destruct (Qltb (ph p) 6.5 || Qltb 8.8 (ph p));
      destruct (Qltb (secchi_disk p) 15 || Qltb 55 (secchi_disk p));
      destruct (stocking_density p >? 120)%Z;
      destruct (timedelta_days (clock w (reads w)) (culture_start_date p)
                >? 100)%Z; reflexivity.
  - intro weather.
    destruct (Qltb (ph p) 6.5 || Qltb 8.8 (ph p)) eqn:Eph;
      [apply outside_spec in Eph
      | apply orb_false_iff in Eph; destruct Eph as [Ep1 Ep2];
        apply Qltb_false in Ep1, Ep2];
      (destruct (Qltb (secchi_disk p) 15 || Qltb 55 (secchi_disk p)) eqn:Esd;
       [apply outside_spec in Esd
       | apply orb_false_iff in Esd; destruct Esd as [Es1 Es2];
         apply Qltb_false in Es1, Es2]);
      destruct (Z.gtb_spec (stocking_density p) 120);
      destruct (Z.gtb_spec
                  (timedelta_days (clock w (reads w)) (culture_start_date p))
                  100);
      destruct weather; cbn; split;
      try (intro Hscore; exfalso; lia);
      try (intros (Hw & (Hp1 & Hp2) & (Hs1 & Hs2) & Hd & Ha); exfalso;
           first [ lia | congruence
                 | destruct Eph; lra | destruct Esd; lra ]);
      try (intros _; reflexivity);
      try (intros _; repeat split; try lra; try lia; congruence).
Qed.

End ConfidenceRange.

(** ** Water quality: status and issues agree *)

Section WaterQualityInvariant.

(** X17: The status is Good when no issue is listed and Poor otherwise; there
    are never more than two issues and never the same issue twice. *)
Theorem water_quality_status_matches_issues (p : PondParameters) :
  let q := _assess_water_quality p in
  (status q = "Good" <-> issues q = [])
  /\ (status q = "Poor" <-> issues q <> [])
  /\ subsequence (issues q) [ph_issue; transparency_issue].
Proof.
  intro q. subst q. unfold _assess_water_quality, ph_issue,
    transparency_issue.
  destruct (negb (between 6.5 (ph p) 8.5));
    destruct (Qltb (secchi_disk p) 20); cbn [status issues app];
    (split; [split; intro H; try discriminate H; reflexivity|]);
    (split; [split; intro H;
             first [ discriminate H | reflexivity
                   | exfalso; now apply H
                   | intro H'; discriminate H' ]|]).
  - apply subsequence_refl.
  - apply subsequence_keep, subsequence_skip, subsequence_nil.
  - apply subsequence_skip, subsequence_refl.
  - apply subsequence_skip, subsequence_skip, subsequence_nil.
Qed.

End WaterQualityInvariant.

(** ** Weather provider *)

Section WeatherProvider.

Lemma weather_fields_follow (data t c ws pr : Json) :
  weather_fields data = Some (t, c, ws, pr)
  <-> follow data ["current"; "temp_c"] = Some t
      /\ follow data ["current"; "condition"; "text"] = Some c
      /\ follow data ["current"; "wind_kph"] = Some ws
      /\ follow data ["current"; "precip_mm"] = Some pr.
Proof.
  unfold weather_fields. cbn [follow option_bind].
  destruct (subscript data "current") as [cur|]; cbn [option_bind];
    [|split; [discriminate | intros [H _]; discriminate H]].
  destruct (subscript cur "temp_c") as [t'|]; cbn [option_bind];
    [|split; [discriminate | intros [H _]; discriminate H]].
  destruct (subscript cur "condition") as [cond|]; cbn [option_bind];
    [|split; [discriminate | intros (_ & H & _); discriminate H]].
  destruct (subscript cond "text") as [c'|]; cbn [option_bind];
    [|split; [discriminate | intros (_ & H & _); discriminate H]].
  destruct (subscript cur "wind_kph") as [ws'|]; cbn [option_bind];
    [|split; [discriminate | intros (_ & _ & H & _); discriminate H]].
  destruct (subscript cur "precip_mm") as [pr'|]; cbn [option_bind];
    [|split; [discriminate | intros (_ & _ & _ & H); discriminate H]].
  split.
  - intros [= -> -> -> ->]. repeat split.
  - intros ([= ->] & [= ->] & [= ->] & [= ->]). reflexivity.
Qed.

(** X18: A reading is returned exactly when the request gives a response with
    status 200 whose body decodes and holds the four values under
    current.temp_c, current.condition.text, current.wind_kph and
    current.precip_mm; the reading then carries these four values, whatever
    their JSON type, stamped with the clock reading. *)
Theorem get_weather_data_success_iff (api_key : string)
    (requests_get : string -> HttpResult) (location : string) (w : World)
    (wd : FetchedWeather) :
  fst (run (get_weather_data api_key requests_get location) w) = Some wd
  <-> exists data : Json,
        requests_get (weather_url api_key location)
        = Response 200 (Some data)
        /\ follow data ["current"; "temp_c"] = Some (fetched_temperature wd)
        /\ follow data ["current"; "condition"; "text"]
           = Some (fetched_condition wd)
        /\ follow data ["current"; "wind_kph"]
           = Some (fetched_wind_speed wd)
        /\ follow data ["current"; "precip_mm"]
           = Some (fetched_precipitation wd)
        /\ fetched_timestamp wd = clock w (reads w).
Proof.
  unfold run, get_weather_data.
  destruct (requests_get (weather_url api_key location))
    as [|status_code body].
  { split; [discriminate | intros (data & H & _); discriminate H]. }
  destruct (Z.eqb_spec status_code 200) as [-> | Hne].
  2:{ split; [discriminate|]. intros (data & [= H _] & _). contradiction. }
  destruct body as [data|].
  2:{ split; [discriminate | intros (data & H & _); discriminate H]. }
  destruct (weather_fields data) as [[[[t c] ws] pr]|] eqn:E.
  - apply weather_fields_follow in E. destruct E as (Et & Ec & Ews & Epr).
    unfold bind, datetime_now, ret. cbn [fst snd].
    split.
    + intros [= <-]. exists data. cbn. repeat split; assumption.
    + intros (data' & [= <-] & Ht & Hc & Hws & Hpr & Hts).
      destruct wd as [t' c' ws' pr' ts']. cbn in *. congruence.
  - split; [discriminate|].
    intros (data' & [= <-] & Ht & Hc & Hws & Hpr & _).
    assert (E' : weather_fields data
                 = Some (fetched_temperature wd, fetched_condition wd,
                         fetched_wind_speed wd, fetched_precipitation wd))
      by (apply weather_fields_follow; repeat split; assumption).
    congruence.
Qed.

(** X19: The call never fails: it gives a reading after exactly one clock
    reading and logs nothing, or it gives nothing, leaves the clock alone
    and logs exactly one error.  Any status other than 200 gives nothing,
    whatever the body, and is logged with its status code. *)
Theorem get_weather_data_failure_modes (api_key : string)
    (requests_get : string -> HttpResult) (location : string) (w : World) :
  let out := get_weather_data api_key requests_get location w in
  let result := fst (fst out) in
  let logged := snd (fst out) in
  ((exists wd, result = Some wd)
   /\ logged = [] /\ snd out = mkWorld (clock w) (S (reads w))
   \/ result = None /\ List.length logged = 1%nat /\ snd out = w)
  /\ (forall (status_code : Z) (body : option Json),
        requests_get (weather_url api_key location)
        = Response status_code body ->
        status_code <> 200 ->
        result = None /\ logged = [LogStatus status_code])
  /\ (requests_get (weather_url api_key location) = RequestFailed ->
      result = None /\ logged = [LogException]).
Proof.
  intros out result logged. subst out result logged.
  unfold get_weather_data.
  destruct (requests_get (weather_url api_key location))
    as [|status_code body].
  { split; [right; repeat split|]. split; [discriminate|].
    intros _. split; reflexivity. }
  destruct (Z.eqb_spec status_code 200) as [-> | Hne].
  - split.
    + destruct body as [data|]; [|right; repeat split].
      destruct (weather_fields data) as [[[[t c] ws] pr]|];
        [left | right]; repeat split.
      eexists. reflexivity.
    + split; [|discriminate]. intros sc b [= <- _] Hsc. contradiction.
  - split; [right; repeat split|]. split; [|discriminate].
    intros sc b [= <- _] _. split; reflexivity.
Qed.

End WeatherProvider.
